(** * Verification of the document downloader and text extractor (main.py)

    A shallow embedding of [main.py]: the Internet Archive and GitHub
    download orchestrators, the record normalizer inside [download_one],
    the PDF text extraction loop with its pattern scan, and the corpus
    search.

    Conventions of the embedding.
    - Python [str] and [bytes] values are [string]s of 8-bit characters;
      case mapping, whitespace, digits and word characters are the ASCII
      ones.  On ASCII text these are Python's; a property that depends on
      them for other text says [is_ascii] of the strings it is about.  A
      file's size in bytes is the length of its content.
    - The filesystem is a finite map from path strings to file contents, on
      a case-sensitive system without links.  [Path / name] is the
      concatenation with a ["/"], which is pathlib's for a name that is a
      single path component; a property about paths built from names that
      the network serves says [plain_name] of these names.  Directories
      exist implicitly and a write succeeds; a property that depends on it
      for the text files of the extraction says [walk_clear] of the tree.
    - The network is an oracle: one function per kind of request.  Every
      request made through [download_file] is recorded in a trace, as is
      every file opened for writing.
    - The worker pool of [download_github_folder] is an interleaving of
      the actions of its tasks, driven by an arbitrary schedule.  A task
      opens and writes its file in one action; a property about what is
      written says that the destinations are distinct.
    - Decoded JSON is typed by the way the program reads it: scalars are
      [None], booleans, integers and strings (no floating point numbers),
      entity values are scalars or lists of scalars.  The size of an
      archive entry is a number or a value on which [int] raises; the
      exception, which nothing catches, ends the loop and the run. *)

From Stdlib Require Import ZArith Ascii String.
From stdpp Require Import gmap strings list fin_maps pretty sorting.

Local Open Scope string_scope.

#[local] Arguments String.append : simpl nomatch.

(** ** Python string operations *)

Module PyStr.

Definition code (c : ascii) : nat := nat_of_ascii c.

Definition in_range (lo hi : ascii) (c : ascii) : bool :=
  (code lo <=? code c)%nat && (code c <=? code hi)%nat.

Definition is_upper (c : ascii) : bool := in_range "A" "Z" c.
Definition is_lower (c : ascii) : bool := in_range "a" "z" c.
Definition is_digit (c : ascii) : bool := in_range "0" "9" c.

(** [\w] : letters, digits and the underscore. *)
Definition is_word (c : ascii) : bool :=
  is_upper c || is_lower c || is_digit c || Ascii.eqb c "_".

(** [str.isspace] on ASCII: TAB, LF, VT, FF, CR, FS, GS, RS, US, SPACE. *)
Definition is_space (c : ascii) : bool :=
  in_range "009" "013" c || in_range "028" "032" c.

Definition lower_char (c : ascii) : ascii :=
  if is_upper c then ascii_of_nat (code c + 32) else c.

(** [s.lower()] on ASCII text. *)
Fixpoint lower (s : string) : string :=
  match s with
  | "" => ""
  | String c t => String (lower_char c) (lower t)
  end.

(** [s.startswith(p)] *)
Fixpoint startswith (p s : string) : bool :=
  match p, s with
  | "", _ => true
  | String a p', String b s' => Ascii.eqb a b && startswith p' s'
  | String _ _, "" => false
  end.

(** [s[n:]] *)
Fixpoint drop (n : nat) (s : string) : string :=
  match n, s with
  | O, _ => s
  | S n', String _ t => drop n' t
  | S _, "" => ""
  end.

(** [s[:n]] *)
Fixpoint take (n : nat) (s : string) : string :=
  match n, s with
  | S n', String c t => String c (take n' t)
  | _, _ => ""
  end.

(** [s.endswith(suf)] *)
Definition endswith (suf s : string) : bool :=
  (String.length suf <=? String.length s)%nat
  && String.eqb (drop (String.length s - String.length suf) s) suf.

(** [needle in hay] *)
Fixpoint contains (needle hay : string) : bool :=
  startswith needle hay
  || match hay with
     | "" => false
     | String _ t => contains needle t
     end.

(** [s.split(sep)] for a one-character separator. *)
Fixpoint split (sep : ascii) (s : string) : list string :=
  match s with
  | "" => [""]
  | String c t =>
      let r := split sep t in
      if Ascii.eqb c sep then "" :: r
      else match r with
           | h :: tl => String c h :: tl
           | [] => [String c ""]
           end
  end.

Fixpoint lstrip (s : string) : string :=
  match s with
  | "" => ""
  | String c t => if is_space c then lstrip t else s
  end.

Fixpoint rstrip (s : string) : string :=
  match s with
  | "" => ""
  | String c t =>
      match rstrip t with
      | "" => if is_space c then "" else String c ""
      | t' => String c t'
      end
  end.

(** [s.strip()] on ASCII text. *)
Definition strip (s : string) : string := rstrip (lstrip s).

(** [sep.join(l)] *)
Fixpoint join (sep : string) (l : list string) : string :=
  match l with
  | [] => ""
  | [x] => x
  | x :: tl => x ++ sep ++ join sep tl
  end.

(** [s * n] *)
Fixpoint mul (s : string) (n : nat) : string :=
  match n with
  | O => ""
  | S n' => s ++ mul s n'
  end.

(** [s.replace(old, new)] for a non-empty [old]: every occurrence of
    [old], found left to right without overlap, becomes [new].  [skip]
    counts the characters of the current occurrence still to be dropped. *)
Fixpoint replace_from (old new : string) (skip : nat) (s : string) : string :=
  match s with
  | "" => ""
  | String c t =>
      match skip with
      | S k => replace_from old new k t
      | O =>
          if startswith old s
          then new ++ replace_from old new (String.length old - 1) t
          else String c (replace_from old new 0 t)
      end
  end.

Definition replace (old new s : string) : string := replace_from old new 0 s.

(** The last index of [c] in [s], as [s.rfind(c)]; [None] for -1. *)
Fixpoint rfind (c : ascii) (s : string) : option nat :=
  match s with
  | "" => None
  | String a t =>
      match rfind c t with
      | Some i => Some (S i)
      | None => if Ascii.eqb a c then Some 0%nat else None
      end
  end.

End PyStr.

(** ** Data model *)

(** The outcome of one item of a batch and the per-run counters
    ([stats] in the source). *)
Inductive FetchOutcome := Downloaded | Skipped | Failed.

Global Instance FetchOutcome_eq_dec : EqDecision FetchOutcome.
Proof. solve_decision. Defined.

Record BatchStats := mkStats { downloaded : nat; skipped : nat; failed : nat }.

Definition zero_stats : BatchStats := mkStats 0 0 0.

(** [stats[result] += 1] *)
Definition bump (o : FetchOutcome) (st : BatchStats) : BatchStats :=
  match o with
  | Downloaded => mkStats (S (downloaded st)) (skipped st) (failed st)
  | Skipped => mkStats (downloaded st) (S (skipped st)) (failed st)
  | Failed => mkStats (downloaded st) (skipped st) (S (failed st))
  end.

(** [total[k] += stats[k]] for every key [k]. *)
Definition add_stats (a b : BatchStats) : BatchStats :=
  mkStats (downloaded a + downloaded b) (skipped a + skipped b) (failed a + failed b).

Definition tally (os : list FetchOutcome) : BatchStats :=
  foldl (fun st o => bump o st) zero_stats os.


(** JSON scalars, with Python's [str] and truth value. *)
Inductive scalar :=
| SNone
| SBool (b : bool)
| SInt (z : Z)
| SStr (s : string).

Definition py_str (v : scalar) : string :=
  match v with
  | SNone => "None"
  | SBool true => "True"
  | SBool false => "False"
  | SInt z => pretty z
  | SStr s => s
  end.

Definition truthy (v : scalar) : bool :=
  match v with
  | SNone => false
  | SBool b => b
  | SInt z => negb (z =? 0)%Z
  | SStr s => negb (String.eqb s "")
  end.

(** An entity value: a scalar or a list. *)
Inductive evalue :=
| EScalar (v : scalar)
| EList (l : list scalar).

(** One OCR record as decoded from JSON.  A dictionary is the list of its
    items in iteration order; an absent key is [None]; [other_keys] counts
    the keys of the record that the downloader does not read. *)
Record JsonRecord := mkRecord {
  full_text : option scalar;
  document_metadata : option (list (string * scalar));
  entities : option (list (string * evalue));
  other_keys : nat
}.

(** An entry of a GitHub contents listing. *)
Record file_info := mkFileInfo { name : string; download_url : string }.

(** An entry of [files] in the Internet Archive metadata.  [ia_size] is the
    value of [int] on the size field, the archive gives sizes as decimal
    numbers. *)
Record ia_file := mkIaFile { ia_name : option string; ia_size : option Z }.

(** An entry of [files] as the loop meets it: one without a size or with a
    size that [int] reads, or one whose size is there and makes [int]
    raise ([null], a list, a string that is no integer literal); of the
    latter only the name is read. *)
Inductive ia_entry :=
| Readable (pdf : ia_file)
| Unreadable (nm : option string).

Record ia_metadata := mkIaMetadata {
  files : option (list ia_entry);
  other_fields : nat
}.

(** ** Filesystem, network and trace *)

Inductive event :=
| EvFetch (url dest : string)
| EvWrite (path : string).

Global Instance event_eq_dec : EqDecision event.
Proof. solve_decision. Defined.

Record world := mkWorld {
  fs : gmap string string;
  trace : list event
}.

(** What a request of [download_file] does: the whole body arrives, or an
    error is raised, before the destination is opened ([None]) or after
    some bytes were written to it. *)
Inductive response :=
| RespOk (body : string)
| RespErr (partial : option string).

(** [get_json] gives [None] for every error; its result is typed by the
    caller that reads it. *)
Record network := mkNetwork {
  http_file : string -> response;
  http_record : string -> option JsonRecord;
  http_listing : string -> option (list file_info);
  http_metadata : string -> option ia_metadata
}.

Definition exists_ (w : world) (p : string) : bool := bool_decide (is_Some (fs w !! p)).

Definition st_size (content : string) : Z := Z.of_nat (String.length content).

(** [open(p, 'w')] followed by the writes and the close. *)
Definition write_file (p content : string) (w : world) : world :=
  mkWorld (<[p := content]> (fs w)) (trace w ++ [EvWrite p]).

(** [dir / name] for a name that is a single path component. *)
Definition joinpath (dir name : string) : string := dir ++ "/" ++ name.

(** [download_file(url, dest)] *)
Definition download_file (net : network) (url dest : string) (w : world) : bool * world :=
  let w1 := mkWorld (fs w) (trace w ++ [EvFetch url dest]) in
  match http_file net url with
  | RespOk body => (true, write_file dest body w1)
  | RespErr (Some part) => (false, write_file dest part w1)
  | RespErr None => (false, w1)
  end.

(** ** Configuration *)

Record SourceDescriptor := mkSource {
  src_id : string;
  src_name : string;
  src_size : string;
  src_priority : Z
}.

Definition IA_SOURCES : list (string * SourceDescriptor) :=
  [ ("giuffre_maxwell",
     mkSource "giuffre-v.-maxwell-115-cv-07433-all-documents-searchable"
              "Giuffre v. Maxwell Court Case" "1.3 GB" 1);
    ("house_oversight_estate",
     mkSource "house-oversight-committe-epstein-estate-pdf"
              "House Oversight - Epstein Estate (Nov 2025)" "3+ GB" 2);
    ("black_book_v2",
     mkSource "estate-production-batch-2-document-1-ocred"
              "Epstein Black Book v2" "60 MB" 0);
    ("phone_book",
     mkSource "safari_202508" "Jeffrey Epstein Phone Book (2004-2005)" "8 MB" 0);
    ("epstein_estate_alt",
     mkSource "epstein-estate-house-oversight-committee-pdf"
              "Epstein Estate - House Oversight (Alt)" "Unknown" 3) ].

Definition GITHUB_REPO : string := "epstein-docs/epstein-docs.github.io".

(** [str(i).zfill(3)] *)
Definition zfill3 (i : nat) : string :=
  let d := pretty i in PyStr.mul "0" (3 - String.length d) ++ d.

Definition GITHUB_FOLDERS : list string :=
  map (fun i => "IMAGES" ++ zfill3 i) (seq 1 12).

(** [IA_SOURCES[key]], [None] when [key not in IA_SOURCES]. *)
Fixpoint lookup_source (key : string) (l : list (string * SourceDescriptor))
  : option SourceDescriptor :=
  match l with
  | [] => None
  | (k, d) :: tl => if String.eqb k key then Some d else lookup_source key tl
  end.

Definition DOCS_DIR (BASE_DIR : string) : string := joinpath BASE_DIR "documents".
Definition EXTRACTED_DIR (BASE_DIR : string) : string := joinpath BASE_DIR "extracted_text".

(** ** Internet Archive orchestrator *)

(** [f.get("name", "").lower().endswith(".pdf")] *)
Definition is_pdf_entry (f : ia_file) : bool :=
  PyStr.endswith ".pdf" (PyStr.lower (default "" (ia_name f))).

(** The name and the size the loop reads from an entry; for an entry
    whose size cannot be read, the name alone. *)
Definition entry_file (e : ia_entry) : ia_file :=
  match e with
  | Readable pdf => pdf
  | Unreadable nm => mkIaFile nm None
  end.

(** [int(pdf.get("size", 0))] raises.  The call is in no [try]: the
    exception leaves the loop and the function. *)
Definition size_raises (e : ia_entry) : bool :=
  match e with
  | Readable _ => false
  | Unreadable _ => true
  end.

(** [int(pdf.get("size", 0))] *)
Definition expected_size (pdf : ia_file) : Z := default 0%Z (ia_size pdf).

(** [pdf["name"]]; the filter of [pdf_files] kept only entries with a name. *)
Definition filename_of (pdf : ia_file) : string := default "" (ia_name pdf).

Definition ia_url (identifier filename : string) : string :=
  "https://archive.org/download/" ++ identifier ++ "/" ++ filename.

(** The size test of the loop: the destination exists and its size is
    within 1024 bytes of the expected one. *)
Definition already_complete (w : world) (dest_path : string) (expected : Z) : bool :=
  match fs w !! dest_path with
  | Some content => (Z.abs (st_size content - expected) <? 1024)%Z
  | None => false
  end.

(** The body of [for pdf in pdf_files]. *)
Definition ia_item (net : network) (identifier dest_dir : string) (pdf : ia_file)
    (w : world) : FetchOutcome * world :=
  let filename := filename_of pdf in
  let dest_path := joinpath dest_dir filename in
  if already_complete w dest_path (expected_size pdf) then (Skipped, w)
  else
    let '(ok, w') := download_file net (ia_url identifier filename) dest_path w in
    (if ok then Downloaded else Failed, w').

(** The loop, with the outcome of every item next to the counters.  The
    counters are [None] when an exception left the loop: the items before
    the entry whose size cannot be read have been dealt with, that entry
    and the ones after it have not. *)
Fixpoint ia_loop (net : network) (identifier dest_dir : string) (pdfs : list ia_entry)
    (stats : BatchStats) (w : world) : option BatchStats * list FetchOutcome * world :=
  match pdfs with
  | [] => (Some stats, [], w)
  | Unreadable _ :: _ => (None, [], w)
  | Readable pdf :: rest =>
      let '(o, w1) := ia_item net identifier dest_dir pdf w in
      let '(stats', os, w2) := ia_loop net identifier dest_dir rest (bump o stats) w1 in
      (stats', o :: os, w2)
  end.

Definition ia_dest_dir (BASE_DIR source_key : string) : string :=
  joinpath (joinpath (DOCS_DIR BASE_DIR) "internet_archive") source_key.

Definition pdf_files_of (metadata : ia_metadata) : list ia_entry :=
  filter (fun f => is_pdf_entry (entry_file f) = true) (default [] (files metadata)).

(** [not metadata]: the request failed or gave an empty object. *)
Definition metadata_missing (m : option ia_metadata) : bool :=
  match m with
  | None => true
  | Some md => match files md with None => (other_fields md =? 0)%nat | Some _ => false end
  end.

(** [download_from_internet_archive]; the counters returned, [None] when
    the loop raised, with the outcomes of the items and the new state. *)
Definition download_from_internet_archive (BASE_DIR : string) (net : network)
    (source_key : string) (w : world) : option BatchStats * list FetchOutcome * world :=
  match lookup_source source_key IA_SOURCES with
  | None => (Some zero_stats, [], w)
  | Some source =>
      let identifier := src_id source in
      let dest_dir := ia_dest_dir BASE_DIR source_key in
      let metadata := http_metadata net ("https://archive.org/metadata/" ++ identifier) in
      if metadata_missing metadata then (Some (mkStats 0 0 1), [], w)
      else
        let pdf_files := from_option pdf_files_of [] metadata in
        match pdf_files with
        | [] => (Some zero_stats, [], w)
        | _ => ia_loop net identifier dest_dir pdf_files zero_stats w
        end
  end.

(** [sorted(keys, key=priority)]: a stable insertion sort. *)
Fixpoint insert_by {A} (key : A -> Z) (x : A) (l : list A) : list A :=
  match l with
  | [] => [x]
  | y :: tl => if (key y <=? key x)%Z then y :: insert_by key x tl else x :: l
  end.

Definition sorted_by {A} (key : A -> Z) (l : list A) : list A :=
  foldl (fun acc x => insert_by key x acc) [] l.

Definition sorted_sources : list string :=
  (sorted_by (fun kd => src_priority (snd kd)) IA_SOURCES).*1.

(** [for key in sorted_sources]; an exception of a source ends the run. *)
Fixpoint download_all_internet_archive_loop (BASE_DIR : string) (net : network)
    (keys : list string) (tot : BatchStats) (w : world) : option BatchStats * world :=
  match keys with
  | [] => (Some tot, w)
  | key :: rest =>
      let '(stats, _, w1) := download_from_internet_archive BASE_DIR net key w in
      match stats with
      | None => (None, w1)
      | Some stats =>
          download_all_internet_archive_loop BASE_DIR net rest (add_stats tot stats) w1
      end
  end.

Definition download_all_internet_archive (BASE_DIR : string) (net : network) (w : world)
  : option BatchStats * world :=
  download_all_internet_archive_loop BASE_DIR net sorted_sources zero_stats w.

(** ** Record normalizer (the rendering inside [download_one]) *)

Definition nl : string := String "010" "".

Definition rule (c : string) : string := PyStr.mul c 70.

(** One iteration of [for etype, elist in entities.items()]. *)
Definition render_entity (e : string * evalue) : list string :=
  match e.2 with
  | EList [] => []
  | EList l => [e.1 ++ ": " ++ PyStr.join ", " (map py_str l)]
  | EScalar v => if truthy v then [e.1 ++ ": " ++ py_str v] else []
  end.

Definition render_entities (ents : list (string * evalue)) : list string :=
  match ents with
  | [] => []
  | _ => [nl ++ rule "-"; "ENTITIES"; rule "-"] ++ flat_map render_entity ents
  end.

(** [lines] just before [full_text] is appended. *)
Definition render_head (r : JsonRecord) : list string :=
  [rule "="; "DOCUMENT METADATA"; rule "="]
  ++ map (fun kv => kv.1 ++ ": " ++ py_str kv.2) (default [] (document_metadata r))
  ++ render_entities (default [] (entities r))
  ++ [nl ++ rule "="; "FULL TEXT"; rule "="].

(** The text written for a record; [None] when ['\n'.join(lines)] raises
    because [full_text] is not a string. *)
Definition normalize (r : JsonRecord) : option string :=
  match default (SStr "") (full_text r) with
  | SStr t => Some (PyStr.join nl (render_head r ++ [t]))
  | _ => None
  end.

(** [not json_data] for a decoded object: it has no key at all. *)
Definition record_empty (r : JsonRecord) : bool :=
  match full_text r, document_metadata r, entities r with
  | None, None, None => (other_keys r =? 0)%nat
  | _, _, _ => false
  end.

(** ** GitHub orchestrator *)

Definition txt_filename (filename : string) : string :=
  PyStr.replace ".json" ".txt" filename.

Definition dest_path_of (dest_dir : string) (f : file_info) : string :=
  joinpath dest_dir (txt_filename (name f)).

(** The [try] block of [download_one].  The destination is opened before
    the lines are joined: when the join raises, an empty file is left. *)
Definition fetch_and_normalize (net : network) (dest_path : string) (f : file_info)
    (w : world) : FetchOutcome * world :=
  match http_record net (download_url f) with
  | None => (Failed, w)
  | Some r =>
      if record_empty r then (Failed, w)
      else match normalize r with
           | None => (Failed, write_file dest_path "" w)
           | Some text => (Downloaded, write_file dest_path text w)
           end
  end.

(** [download_one] run without interruption. *)
Definition download_one (net : network) (dest_dir : string) (f : file_info)
    (w : world) : FetchOutcome * world :=
  let dest_path := dest_path_of dest_dir f in
  if exists_ w dest_path then (Skipped, w)
  else fetch_and_normalize net dest_path f w.

(** A task of the pool: not started, past its existence test, or done. *)
Inductive task :=
| Queued
| Running
| Finished (o : FetchOutcome).

Definition outcome_of (t : task) : option FetchOutcome :=
  match t with
  | Finished o => Some o
  | _ => None
  end.

(** One action of a task: the existence test, or the fetch with the
    write.  The program opens the file and writes it in two steps; they
    are one here, which is the same for tasks with distinct destinations. *)
Definition task_step (net : network) (dest_dir : string) (f : file_info) (t : task)
    (w : world) : task * world :=
  match t with
  | Queued =>
      if exists_ w (dest_path_of dest_dir f) then (Finished Skipped, w) else (Running, w)
  | Running =>
      let '(o, w') := fetch_and_normalize net (dest_path_of dest_dir f) f w in
      (Finished o, w')
  | Finished _ => (t, w)
  end.

Definition pool : Type := list (file_info * task) * world.

(** The worker holding task [i] makes its next move. *)
Definition pool_step (net : network) (dest_dir : string) (p : pool) (i : nat) : pool :=
  match p.1 !! i with
  | None => p
  | Some (f, t) =>
      let '(t', w') := task_step net dest_dir f t p.2 in
      (<[i := (f, t')]> p.1, w')
  end.

(** Moves in the order of [sched], then whatever is left, in order: an
    executor leaves its [with] block only when every task is done.  The
    schedules are not restricted to [max_workers] running tasks: what holds
    for all of them holds for the bounded pool. *)
Definition drain_schedule (n : nat) : list nat :=
  flat_map (fun i => [i; i]) (seq 0 n).

Definition run_pool (net : network) (dest_dir : string) (sched : list nat)
    (json_files : list file_info) (w : world) : pool :=
  let p0 : pool := (map (fun f => (f, Queued)) json_files, w) in
  foldl (pool_step net dest_dir) p0 (sched ++ drain_schedule (length json_files)).

Definition github_api_url (folder : string) : string :=
  "https://api.github.com/repos/" ++ GITHUB_REPO ++ "/contents/results/" ++ folder.

Definition json_files_of (data : list file_info) : list file_info :=
  filter (fun f => PyStr.endswith ".json" (name f) = true) data.

(** [download_github_folder]; next to the counters it gives the state of
    every task when the pool is left. *)
Definition download_github_folder (net : network) (sched : list nat)
    (folder dest_dir : string) (w : world)
  : BatchStats * list (file_info * task) * world :=
  match http_listing net (github_api_url folder) with
  | None | Some [] => (zero_stats, [], w)
  | Some data =>
      let json_files := json_files_of data in
      let p := run_pool net dest_dir sched json_files w in
      (tally (omap (fun ft => outcome_of ft.2) p.1), p.1, p.2)
  end.

Definition github_dest_dir (BASE_DIR : string) : string :=
  joinpath (DOCS_DIR BASE_DIR) "github_ocr".



(** ** Regular expressions of the pattern scan

    The two patterns are sequences of greedy repetitions of a character
    class and of word-boundary tests; [re.findall] on them is a leftmost,
    greedy, backtracking search for non-overlapping matches.  The digits
    and the word characters are the ASCII ones, which are those of [\d]
    and [\b] on ASCII text. *)

Module Re.

Inductive atom :=
| Rep (cls : ascii -> bool) (lo : nat) (hi : option nat)
| Boundary.

Definition word_opt (c : option ascii) : bool := from_option PyStr.is_word false c.

Definition head (s : string) : option ascii :=
  match s with
  | "" => None
  | String c _ => Some c
  end.

(** [\b] between the character before the position and the one at it. *)
Definition at_boundary (prev : option ascii) (s : string) : bool :=
  xorb (word_opt prev) (word_opt (head s)).

(** The length of the longest prefix of [s] in the class, at most [hi]. *)
Fixpoint run (cls : ascii -> bool) (hi : option nat) (s : string) : nat :=
  match s with
  | "" => 0
  | String c t =>
      match hi with
      | Some 0 => 0
      | _ => if cls c then S (run cls (pred <$> hi) t) else 0
      end
  end.

(** The character before position [j] of [s], [prev] for position 0. *)
Definition prev_at (prev : option ascii) (j : nat) (s : string) : option ascii :=
  match j with
  | O => prev
  | S j' => head (PyStr.drop j' s)
  end.

(** Tries the continuation after [j] characters, then after fewer, down to [lo]. *)
Fixpoint backtrack (k : option ascii -> string -> option string) (lo j : nat)
    (prev : option ascii) (s : string) : option string :=
  if (j <? lo)%nat then None
  else match k (prev_at prev j s) (PyStr.drop j s) with
       | Some r => Some r
       | None => match j with
                 | O => None
                 | S j' => backtrack k lo j' prev s
                 end
       end.

(** Matches [pat] at the start of [s]; gives what follows the match. *)
Fixpoint match_here (pat : list atom) (prev : option ascii) (s : string) : option string :=
  match pat with
  | [] => Some s
  | Boundary :: rest => if at_boundary prev s then match_here rest prev s else None
  | Rep cls lo hi :: rest => backtrack (match_here rest) lo (run cls hi s) prev s
  end.

(** [re.findall]: [skip] counts the characters of the last match still to
    be passed over. *)
Fixpoint findall_from (pat : list atom) (prev : option ascii) (skip : nat) (s : string)
  : list string :=
  let here :=
    match skip with
    | O => match_here pat prev s
    | S _ => None
    end in
  match here with
  | Some r =>
      let n := (String.length s - String.length r)%nat in
      PyStr.take n s ::
        match s with
        | "" => []
        | String c t => findall_from pat (Some c) (n - 1) t
        end
  | None =>
      match s with
      | "" => []
      | String c t => findall_from pat (Some c) (skip - 1) t
      end
  end.

Definition findall (pat : list atom) (s : string) : list string :=
  findall_from pat None 0 s.

Definition one (cls : ascii -> bool) : atom := Rep cls 1 (Some 1).
Definition chr (c : ascii) : ascii -> bool := Ascii.eqb c.
Definition any_of (cs : string) (c : ascii) : bool := PyStr.contains (String c "") cs.
Definition alnum (c : ascii) : bool := PyStr.is_upper c || PyStr.is_lower c || PyStr.is_digit c.

(** [\b\d{3}[-.]?\d{3}[-.]?\d{4}\b] *)
Definition phone : list atom :=
  [ Boundary; Rep PyStr.is_digit 3 (Some 3); Rep (any_of "-.") 0 (Some 1);
    Rep PyStr.is_digit 3 (Some 3); Rep (any_of "-.") 0 (Some 1);
    Rep PyStr.is_digit 4 (Some 4); Boundary ].

(** [\b[A-Za-z0-9._%+-]+@[A-Za-z0-9.-]+\.[A-Z|a-z]{2,}\b] *)
Definition email : list atom :=
  [ Boundary; Rep (fun c => alnum c || any_of "._%+-" c) 1 None; one (chr "@");
    Rep (fun c => alnum c || any_of ".-" c) 1 None; one (chr ".");
    Rep (fun c => PyStr.is_upper c || PyStr.is_lower c || chr "|" c) 2 None; Boundary ].

End Re.

(** ** Paths and directory walks *)

(** The text of [p] after its last ["/"] ([PurePath.name]). *)
Definition basename (p : string) : string :=
  match PyStr.rfind "/" p with
  | Some i => PyStr.drop (S i) p
  | None => p
  end.

(** [PurePath.suffix] of a file name: from its last dot, unless that dot
    is the first or the last character. *)
Definition suffix (nm : string) : string :=
  match PyStr.rfind "." nm with
  | Some i =>
      if (0 <? i)%nat && (i <? String.length nm - 1)%nat then PyStr.drop i nm else ""
  | None => ""
  end.

(** [p.with_suffix(sfx)] *)
Definition with_suffix (sfx p : string) : string :=
  PyStr.take (String.length p - String.length (suffix (basename p))) p ++ sfx.

(** [p.relative_to(dir)] for a path below [dir]. *)
Definition relative_to (dir p : string) : string :=
  PyStr.drop (String.length dir + 1) p.

(** [dir.rglob("*" + ext)] on a case-sensitive filesystem: the files below
    [dir] whose name ends in [ext]. *)
Definition rglob (w : world) (dir ext : string) : list string :=
  filter (fun p => PyStr.startswith (dir ++ "/") p && PyStr.endswith ext p = true)
         (map_to_list (fs w)).*1.

(** ** Text extraction *)

(** The extraction capability chosen at start-up.  [open_pages] is
    [fitz.open] with [page.get_text] on every page, [None] when it raises;
    [run_tool] is the output of [pdftotext], or the text of the exception
    raised by [subprocess.run]. *)
Inductive backend :=
| PyMuPDF (open_pages : string -> option (list string))
| Pdftotext (run_tool : string -> string + string).

(** [metadata.get('pages', 'unknown')] and [metadata.get('blank_pages', 'unknown')] *)
Record pdf_meta := mkMeta { pages : option nat; blank_pages : option nat }.

(** [len(text.strip()) < 50], the length of an ASCII text being its
    number of bytes. *)
Definition is_blank (text : string) : bool :=
  (String.length (PyStr.strip text) <? 50)%nat.

Definition count_blank (pgs : list string) : nat :=
  length (filter (fun pg => is_blank pg = true) pgs).

Definition page_banner (page_num : nat) (text : string) : string :=
  "--- PAGE " ++ pretty (page_num + 1)%nat ++ " ---" ++ nl ++ text.

(** [extract_pdf_text]; [None] when an exception leaves the function. *)
Definition extract_pdf_text (b : backend) (pdf_path : string) : option (string * pdf_meta) :=
  match b with
  | Pdftotext run_tool =>
      match run_tool pdf_path with
      | inl text =>
          let pgs := PyStr.split "012" text in
          Some (text, mkMeta (Some (length pgs)) (Some (count_blank pgs)))
      | inr e => Some ("Error: " ++ e, mkMeta None None)
      end
  | PyMuPDF open_pages =>
      match open_pages pdf_path with
      | None => None
      | Some pgs =>
          Some (PyStr.join (nl ++ nl) (imap page_banner pgs),
                mkMeta (Some (length pgs)) (Some (count_blank pgs)))
      end
  end.

(** An entry of [interesting_finds]. *)
Record finding := mkFinding { file : string; type : string; samples : list string }.

Definition patterns : list (list Re.atom * string) :=
  [ (Re.phone, "phone numbers"); (Re.email, "emails") ].

(** [for pattern, desc in patterns: ... break] *)
Fixpoint scan_patterns (pats : list (list Re.atom * string)) (rel_path text : string)
  : list finding :=
  match pats with
  | [] => []
  | (pattern, desc) :: rest =>
      match Re.findall pattern text with
      | [] => scan_patterns rest rel_path text
      | matches => [mkFinding rel_path desc (firstn 5 matches)]
      end
  end.

Record ExtractStats := mkXStats { processed : nat; x_skipped : nat; x_failed : nat }.

Definition unknown_or (n : option nat) : string := from_option pretty "unknown" n.

(** What the five [f.write] calls put into the text file. *)
Definition text_file (pdf_name : string) (m : pdf_meta) (text : string) : string :=
  "SOURCE: " ++ pdf_name ++ nl
  ++ "PAGES: " ++ unknown_or (pages m) ++ nl
  ++ "BLANK PAGES: " ++ unknown_or (blank_pages m) ++ nl
  ++ rule "=" ++ nl ++ nl
  ++ text.

Definition pdf_dir (BASE_DIR : string) : string :=
  joinpath (DOCS_DIR BASE_DIR) "internet_archive".

Definition txt_path_of (BASE_DIR rel_path : string) : string :=
  joinpath (joinpath (EXTRACTED_DIR BASE_DIR) "pdf_text") (with_suffix ".txt" rel_path).

Definition report_path (BASE_DIR : string) : string :=
  joinpath (EXTRACTED_DIR BASE_DIR) "interesting_finds.json".

Inductive ExtractOutcome := Processed | AlreadyExtracted | ExtractFailed.

Definition xbump (o : ExtractOutcome) (st : ExtractStats) : ExtractStats :=
  match o with
  | Processed => mkXStats (S (processed st)) (x_skipped st) (x_failed st)
  | AlreadyExtracted => mkXStats (processed st) (S (x_skipped st)) (x_failed st)
  | ExtractFailed => mkXStats (processed st) (x_skipped st) (S (x_failed st))
  end.

(** The body of [for pdf_path in pdfs]: the outcome, the findings added
    and the new state.  The directory of the text file can be made and the
    file written, as on a tree where nothing stands in their way. *)
Definition extract_item (BASE_DIR : string) (b : backend) (pdf_path : string) (w : world)
  : ExtractOutcome * list finding * world :=
  let rel_path := relative_to (pdf_dir BASE_DIR) pdf_path in
  let txt_path := txt_path_of BASE_DIR rel_path in
  if exists_ w txt_path then (AlreadyExtracted, [], w)
  else match extract_pdf_text b pdf_path with
       | None => (ExtractFailed, [], w)
       | Some (text, metadata) =>
           (Processed, scan_patterns patterns rel_path text,
            write_file txt_path (text_file (basename pdf_path) metadata text) w)
       end.

(** The loop, with the outcome of every item next to the counters. *)
Fixpoint extract_loop (BASE_DIR : string) (b : backend) (pdfs : list string)
    (stats : ExtractStats) (finds : list finding) (w : world)
  : ExtractStats * list finding * list ExtractOutcome * world :=
  match pdfs with
  | [] => (stats, finds, [], w)
  | pdf_path :: rest =>
      let '(o, new, w1) := extract_item BASE_DIR b pdf_path w in
      let '(stats', finds', os, w2) :=
        extract_loop BASE_DIR b rest (xbump o stats) (finds ++ new) w1 in
      (stats', finds', o :: os, w2)
  end.

(** [json.dumps(s)] of an ASCII string: the control characters, the quote
    and the backslash are escaped. *)
Definition dq : string := String "034" "".

Definition hex_digit (n : nat) : ascii :=
  ascii_of_nat (if (n <? 10)%nat then 48 + n else 87 + n).

Definition json_escape_char (c : ascii) : string :=
  if Ascii.eqb c "034" then "\" ++ dq
  else if Ascii.eqb c "\" then "\\"
  else if Ascii.eqb c "010" then "\n"
  else if Ascii.eqb c "013" then "\r"
  else if Ascii.eqb c "009" then "\t"
  else if Ascii.eqb c "008" then "\b"
  else if Ascii.eqb c "012" then "\f"
  else if PyStr.in_range " " "~" c then String c ""
  else "\u00" ++ String (hex_digit (PyStr.code c / 16)) (String (hex_digit (PyStr.code c mod 16)) "").

Fixpoint json_escape (s : string) : string :=
  match s with
  | "" => ""
  | String c t => json_escape_char c ++ json_escape t
  end.

Definition json_string (s : string) : string := dq ++ json_escape s ++ dq.

Definition json_samples (l : list string) : string :=
  match l with
  | [] => "[]"
  | _ => "[" ++ nl
         ++ PyStr.join ("," ++ nl) (map (fun x => "      " ++ json_string x) l)
         ++ nl ++ "    ]"
  end.

Definition json_finding (f : finding) : string :=
  "  {" ++ nl
  ++ "    " ++ json_string "file" ++ ": " ++ json_string (file f) ++ "," ++ nl
  ++ "    " ++ json_string "type" ++ ": " ++ json_string (type f) ++ "," ++ nl
  ++ "    " ++ json_string "samples" ++ ": " ++ json_samples (samples f) ++ nl
  ++ "  }".

(** [json.dump(interesting_finds, f, indent=2)] *)
Definition json_dump (finds : list finding) : string :=
  match finds with
  | [] => "[]"
  | _ => "[" ++ nl ++ PyStr.join ("," ++ nl) (map json_finding finds) ++ nl ++ "]"
  end.

(** The list [pdfs] of [extract_all_pdfs]. *)
Definition pdfs_of (BASE_DIR : string) (w : world) : list string :=
  (rglob w (pdf_dir BASE_DIR) ".pdf" ++ rglob w (pdf_dir BASE_DIR) ".PDF")%list.

(** [extract_all_pdfs]; the findings and the outcomes of the run are given
    with the counters.  Directories are implicit, so the early return for
    a missing [pdf_dir] is the run over an empty walk. *)
Definition extract_all_pdfs (BASE_DIR : string) (b : backend) (w : world)
  : ExtractStats * list finding * list ExtractOutcome * world :=
  let '(stats, finds, os, w1) :=
    extract_loop BASE_DIR b (pdfs_of BASE_DIR w) (mkXStats 0 0 0) [] w in
  match finds with
  | [] => (stats, finds, os, w1)
  | _ => (stats, finds, os, write_file (report_path BASE_DIR) (json_dump finds) w1)
  end.

(** ** Corpus search *)

(** Reading an ASCII file in text mode: [\r\n] and [\r] arrive as [\n]. *)
Fixpoint read_text (content : string) : string :=
  match content with
  | "" => ""
  | String c t =>
      if Ascii.eqb c "013" then
        match t with
        | String c' t' => if Ascii.eqb c' "010" then read_text t else String "010" (read_text t)
        | "" => nl
        end
      else String c (read_text t)
  end.

(** The list [matches] for one file, before the cut to five. *)
Definition line_matches (term content : string) : list (nat * string) :=
  omap (fun il : nat * string =>
          if PyStr.contains (PyStr.lower term) (PyStr.lower il.2)
          then Some ((il.1 + 1)%nat, PyStr.take 100 (PyStr.strip il.2))
          else None)
       (imap pair (PyStr.split "010" content)).

(** One file of the walk: its entry of [results], if any. *)
Definition search_file (BASE_DIR term txt_file : string) (raw : string)
  : option (string * list (nat * string)) :=
  let content := read_text raw in
  if PyStr.contains (PyStr.lower term) (PyStr.lower content)
  then Some (relative_to BASE_DIR txt_file, firstn 5 (line_matches term content))
  else None.

Definition search_dirs (BASE_DIR : string) : list string :=
  [ github_dest_dir BASE_DIR; EXTRACTED_DIR BASE_DIR ].

(** The list [results] built by [search_all]. *)
Definition search_all (BASE_DIR term : string) (w : world)
  : list (string * list (nat * string)) :=
  flat_map (fun search_dir =>
              omap (fun txt_file =>
                      raw ← fs w !! txt_file; search_file BASE_DIR term txt_file raw)
                   (rglob w search_dir ".txt"))
           (search_dirs BASE_DIR).

(** ** Notions used by the properties *)

(** The list the loop of [download_from_internet_archive] runs over, and
    the names and sizes of its entries. *)
Definition ia_entries (net : network) (source_key : string) : list ia_entry :=
  match lookup_source source_key IA_SOURCES with
  | None => []
  | Some source =>
      from_option pdf_files_of []
        (http_metadata net ("https://archive.org/metadata/" ++ src_id source))
  end.

Definition ia_listing (net : network) (source_key : string) : list ia_file :=
  entry_file <$> ia_entries net source_key.

Definition ia_identifier (source_key : string) : string :=
  from_option src_id "" (lookup_source source_key IA_SOURCES).


(** The derived name as the specification words it: the extension, the
    last five characters of an eligible name, gives way to [.txt]. *)
Definition replace_extension_spec (filename : string) : string :=
  PyStr.take (String.length filename - 5) filename ++ ".txt".


(** Every task below index [k] is done. *)
Definition done_upto (k : nat) (p : pool) : Prop :=
  forall j f t, (j < k)%nat -> p.1 !! j = Some (f, t) -> exists o, t = Finished o.

(** Between [w0] and [w] the file at [p] kept its content and was not
    opened for writing. *)
Definition keeps (p : string) (w0 w : world) : Prop :=
  fs w !! p = fs w0 !! p
  /\ exists added, trace w = (trace w0 ++ added)%list /\ EvWrite p ∉ added.

(** The file at [q] was there before the batch: it is left alone, and a
    task whose destination it is never gets past its existence test. *)
Definition pool_inv (dest_dir q : string) (w0 : world) (p : pool) : Prop :=
  keeps q w0 p.2
  /\ forall i f t, p.1 !! i = Some (f, t) -> dest_path_of dest_dir f = q ->
       t = Queued \/ t = Finished Skipped.




(** [not metadata] for the source of a key. *)
Definition ia_metadata_missing (net : network) (source_key : string) : bool :=
  match lookup_source source_key IA_SOURCES with
  | None => false
  | Some source =>
      metadata_missing (http_metadata net ("https://archive.org/metadata/" ++ src_id source))
  end.

(** The text expected for the record of the normalizer example. *)
Definition text_ab : string :=
  rule "=" ++ nl ++ "DOCUMENT METADATA" ++ nl ++ rule "=" ++ nl
  ++ "a: 1" ++ nl ++ "b: 2" ++ nl
  ++ nl ++ rule "=" ++ nl ++ "FULL TEXT" ++ nl ++ rule "=" ++ nl ++ "hello".

(** What [search_all] records for a line. *)
Definition match_of (term : string) (il : nat * string) : option (nat * string) :=
  if PyStr.contains (PyStr.lower term) (PyStr.lower il.2)
  then Some ((il.1 + 1)%nat, PyStr.take 100 (PyStr.strip il.2))
  else None.

(** ** Concrete inputs used below *)

Definition ok_net (body : string) : network :=
  mkNetwork (fun _ => RespOk body) (fun _ => None) (fun _ => None) (fun _ => None).

Definition pdf_500 : ia_file := mkIaFile (Some "a.pdf") (Some 500%Z).

Definition pdf_nosize : ia_file := mkIaFile (Some "a.pdf") None.

Definition pdf_b : ia_file := mkIaFile (Some "b.pdf") (Some 5%Z).

Definition pdf_c : ia_file := mkIaFile (Some "c.pdf") (Some 5%Z).

(** An entry whose size is no integer. *)
Definition pdf_badsize : ia_entry := Unreadable (Some "a.pdf").

Definition world_a (content : string) : world :=
  mkWorld {[ "d/a.pdf" := content ]} [].

Definition bytes_2000 : string := PyStr.mul "x" 2000.

Definition demo_base : string := "/data".

Definition demo_listing : list file_info :=
  [ mkFileInfo "x.json" "https://raw.example/x.json";
    mkFileInfo "notes.md" "https://raw.example/notes.md" ].

Definition demo_record : JsonRecord :=
  mkRecord (Some (SStr "hello")) (Some [("a", SStr "1"); ("b", SStr "2")]) (Some []) 0.

Definition demo_net : network :=
  mkNetwork (fun _ => RespOk "fresh") (fun _ => Some demo_record)
            (fun _ => Some demo_listing) (fun _ => None).

Definition demo_backend : backend := PyMuPDF (fun _ => Some ["page one"]).

(** A tree with one PDF whose text exists and one converted record. *)
Definition demo_world : world :=
  mkWorld {[ "/data/documents/internet_archive/src/a.pdf" := "%PDF";
             "/data/extracted_text/pdf_text/src/a.txt" := "old text";
             "d/x.txt" := "old record" ]} [].

(** An archive item with one PDF, with or without a declared size. *)
Definition meta_with (size : option Z) (url : string) : option ia_metadata :=
  Some (mkIaMetadata (Some [Readable (mkIaFile (Some "a.pdf") size);
                            Readable (mkIaFile (Some "cover.jpg") None)]) 3).

Definition archive_net (size : option Z) (body : string) : network :=
  mkNetwork (fun _ => RespOk body) (fun _ => Some demo_record)
            (fun _ => Some demo_listing) (meta_with size).


(** An archive item whose second PDF has a size that is no integer. *)
Definition unreadable_size_net : network :=
  mkNetwork (fun _ => RespOk "fresh") (fun _ => None) (fun _ => None)
            (fun _ => Some (mkIaMetadata (Some [Readable pdf_b; pdf_badsize; Readable pdf_c]) 3)).

Definition empty_world : world := mkWorld ∅ [].


(** A tree whose only document has a mixed-case extension. *)
Definition mixed_case_world : world :=
  mkWorld {[ "/data/documents/internet_archive/src/doc.Pdf" := "%PDF" ]} [].

Definition three_cases_world : world :=
  mkWorld {[ "/data/documents/internet_archive/src/a.pdf" := "%PDF";
             "/data/documents/internet_archive/src/b.PDF" := "%PDF";
             "/data/documents/internet_archive/src/doc.Pdf" := "%PDF" ]} [].

Definition record_without_keys : JsonRecord := mkRecord None None None 1.

Definition phone_and_email_text : string :=
  "Call 212-555-0100 or 2125550101, 212.555.0102, 2125550103, 212-555-0104, "
  ++ "212-555-0105; write to jane.doe@example.com".

Definition scan_backend : backend := Pdftotext (fun _ => inl phone_and_email_text).

(** A tree with one PDF that has no text file yet. *)
Definition scan_world : world :=
  mkWorld {[ "/data/documents/internet_archive/src/a.pdf" := "%PDF" ]} [].

(** A corpus whose file has [Contact: trump@example.com] as its fifth
    line, and one whose only line is indented. *)
Definition five_lines : string :=
  "SOURCE: a.pdf" ++ nl ++ "PAGES: 1" ++ nl ++ "BLANK PAGES: 0" ++ nl ++ rule "=" ++ nl
  ++ "Contact: trump@example.com" ++ nl ++ "end".

Definition corpus_world : world :=
  mkWorld {[ "/data/extracted_text/pdf_text/src/a.txt" := five_lines ]} [].



(** ** Further notions *)


(** The eligible entries of a folder, as the batch sees them. *)
Definition folder_files (net : network) (folder : string) : list file_info :=
  json_files_of (default [] (http_listing net (github_api_url folder))).

(** Between [w0] and [w] every write went to the text file of an entry of
    [files], and what a path holds is what it held before or the text
    written for the record of an entry that maps to it. *)
Definition batch_writes (net : network) (dest_dir : string) (files : list file_info)
    (w0 w : world) : Prop :=
  (exists added,
     trace w = (trace w0 ++ added)%list
     /\ forall e, e ∈ added -> exists f, f ∈ files /\ e = EvWrite (dest_path_of dest_dir f))
  /\ forall q,
       fs w !! q = fs w0 !! q
       \/ exists f r, f ∈ files /\ dest_path_of dest_dir f = q
            /\ http_record net (download_url f) = Some r /\ record_empty r = false
            /\ fs w !! q = Some (default "" (normalize r)).

(** Every write between [w0] and [w] went below [dir], and the files
    elsewhere are as they were. *)
Definition writes_below (dir : string) (w0 w : world) : Prop :=
  (exists added,
     trace w = (trace w0 ++ added)%list
     /\ forall e, e ∈ added ->
          exists p, e = EvWrite p /\ PyStr.startswith (dir ++ "/") p = true)
  /\ forall q, PyStr.startswith (dir ++ "/") q = false -> fs w !! q = fs w0 !! q.

Definition xtotal (st : ExtractStats) : nat := (processed st + x_skipped st + x_failed st)%nat.

Definition xtally (os : list ExtractOutcome) : ExtractStats :=
  foldl (fun st o => xbump o st) (mkXStats 0 0 0) os.

(** The text file of a PDF of the walk. *)
Definition txt_of (BASE_DIR pdf_path : string) : string :=
  txt_path_of BASE_DIR (relative_to (pdf_dir BASE_DIR) pdf_path).

(** The number of occurrences of a character. *)
Fixpoint count_char (c : ascii) (s : string) : nat :=
  match s with
  | "" => 0
  | String a t => ((if Ascii.eqb a c then 1 else 0) + count_char c t)%nat
  end.


(** A term that spans two lines of [five_lines]. *)
Definition two_line_term : string := "example.com" ++ nl ++ "end".

(** The least and the greatest number of characters a pattern can match,
    and the characters it can match at all. *)
Fixpoint min_len (pat : list Re.atom) : nat :=
  match pat with
  | [] => 0
  | Re.Rep _ lo _ :: rest => (lo + min_len rest)%nat
  | Re.Boundary :: rest => min_len rest
  end.

Fixpoint max_len (pat : list Re.atom) : option nat :=
  match pat with
  | [] => Some 0%nat
  | Re.Rep _ _ hi :: rest => h ← hi; m ← max_len rest; Some (h + m)%nat
  | Re.Boundary :: rest => max_len rest
  end.

Fixpoint pat_class (pat : list Re.atom) (c : ascii) : bool :=
  match pat with
  | [] => false
  | Re.Rep cls _ _ :: rest => cls c || pat_class rest c
  | Re.Boundary :: rest => pat_class rest c
  end.

Fixpoint str_all (P : ascii -> bool) (s : string) : bool :=
  match s with
  | "" => true
  | String c t => P c && str_all P t
  end.

(** [x] occurs in [s]. *)
Definition substring_of (x s : string) : Prop := exists pre post, s = pre ++ x ++ post.


(** A name that is a single path component: not empty, not [.] or [..],
    without a slash or a NUL.  For such a name [dir / name] is the
    concatenation [joinpath], and two of them are the same file only when
    they are the same string. *)
Definition plain_name (nm : string) : bool :=
  negb (String.eqb nm "") && negb (String.eqb nm ".") && negb (String.eqb nm "..")
  && negb (PyStr.contains "/" nm) && negb (PyStr.contains (String "000" "") nm).

(** [p] is a directory above [q]. *)
Definition ancestor (p q : string) : bool := PyStr.startswith (p ++ "/") q.

(** The directories above [p]: its prefixes that end before a slash. *)
Fixpoint ancestors_from (pre s : string) : list string :=
  match s with
  | "" => []
  | String c t =>
      ((if Ascii.eqb c "/" then [pre] else []) ++ ancestors_from (pre ++ String c "") t)%list
  end.

Definition ancestors (p : string) : list string := ancestors_from "" p.

(** Nothing stands in the way of the text files of the walk: the text
    file of a PDF of the walk is neither above nor below a file of the
    tree or the text file of another PDF of the walk, so that no directory
    of a text file is a file and no text file is a directory; and no
    directory above a PDF of the walk has itself a name that ends in
    [.pdf] or [.PDF], so that the walk lists files only. *)
Definition walk_clear (BASE_DIR : string) (w : world) : bool :=
  forallb (fun pdf_path =>
             forallb (fun q => negb (ancestor q (txt_of BASE_DIR pdf_path))
                               && negb (ancestor (txt_of BASE_DIR pdf_path) q))
                     ((map_to_list (fs w)).*1 ++ (txt_of BASE_DIR <$> pdfs_of BASE_DIR w))
             && forallb (fun d => negb (PyStr.endswith ".pdf" d || PyStr.endswith ".PDF" d))
                        (ancestors pdf_path))
          (pdfs_of BASE_DIR w).

(** A string of ASCII characters only.  On such strings the bytes are the
    characters, and [lower], [strip], slicing, the decoding of a file and
    the classes of the regular expressions are the ones modelled here. *)
Definition is_ascii (s : string) : bool :=
  str_all (fun c => (PyStr.code c <? 128)%nat) s.

(** Every [.txt] file of the tree is ASCII. *)
Definition text_files_ascii (w : world) : bool :=
  forallb (fun kv : string * string => negb (PyStr.endswith ".txt" kv.1) || is_ascii kv.2)
          (map_to_list (fs w)).

(** ** Status report *)

(** [dir.glob("*" + ext)]: the files directly in [dir] whose name ends in
    [ext]. *)
Definition glob (w : world) (dir ext : string) : list string :=
  filter (fun p => PyStr.startswith (dir ++ "/") p && PyStr.endswith ext p
                   && negb (PyStr.contains "/" (relative_to dir p)) = true)
         (map_to_list (fs w)).*1.

(** [p.stat().st_size] *)
Definition size_at (w : world) (p : string) : Z := from_option st_size 0%Z (fs w !! p).

(** [sum(p.stat().st_size for p in pdfs)] *)
Definition sum_sizes (w : world) (ps : list string) : Z :=
  foldr (fun p acc => (size_at w p + acc)%Z) 0%Z ps.

(** The numbers [show_status] prints: for every source its name, the
    number of its PDFs and their size in bytes, then the text files below
    [github_ocr], the text files below [extracted_text], and the totals.
    Directories are implicit: the program prints the line of a source
    only when its directory exists; the record keeps the numbers of every
    source, those of a missing directory being the zeros of an empty one,
    which add nothing to the totals. *)
Record StatusReport := mkStatus {
  source_lines : list (string * nat * Z);
  github_files : nat;
  extracted_files : nat;
  total_files : nat;
  total_size : Z
}.

Definition show_status (BASE_DIR : string) (w : world) : StatusReport :=
  let ia_dir := pdf_dir BASE_DIR in
  let lines :=
    map (fun ks : string * SourceDescriptor =>
           let pdfs := glob w (joinpath ia_dir ks.1) ".pdf" in
           (src_name ks.2, length pdfs, sum_sizes w pdfs))
        IA_SOURCES in
  let txts := rglob w (github_dest_dir BASE_DIR) ".txt" in
  let extracted := rglob w (EXTRACTED_DIR BASE_DIR) ".txt" in
  mkStatus lines (length txts) (length extracted)
           (foldr (fun l acc => (l.1.2 + acc)%nat) 0%nat lines + length txts)
           (foldr (fun l acc => (l.2 + acc)%Z) 0%Z lines).

(** ** The complete download *)



Example sorted_sources_ex :
  sorted_sources = ["black_book_v2"; "phone_book"; "giuffre_maxwell";
                    "house_oversight_estate"; "epstein_estate_alt"].
Proof. reflexivity. Qed.

Example folders_ex : GITHUB_FOLDERS !! 0%nat = Some "IMAGES001" /\ GITHUB_FOLDERS !! 11%nat = Some "IMAGES012".
Proof. split; vm_compute; reflexivity. Qed.

Example phone_ex :
  Re.findall Re.phone "call 555-123-4567 or 2125550000, not 12345678901 x555.123.4567"
  = ["555-123-4567"; "2125550000"].
Proof. vm_compute. reflexivity. Qed.

Example email_ex :
  Re.findall Re.email "to a.b@ex.co.uk, c@d.e and x_y@host.org."
  = ["a.b@ex.co.uk"; "x_y@host.org"].
Proof. vm_compute. reflexivity. Qed.

Example email_ex2 :
  Re.findall Re.email "me@x.com1 .a@b.cd| q%r@s-t.u|v" = ["a@b.cd"; "q%r@s-t.u|v"].
Proof. vm_compute. reflexivity. Qed.

Example with_suffix_ex :
  with_suffix ".txt" "a/b.c.pdf" = "a/b.c.txt" /\ with_suffix ".txt" "a/.pdf" = "a/.pdf.txt"
  /\ with_suffix ".txt" "x/..pdf" = "x/..txt".
Proof. repeat split; vm_compute; reflexivity. Qed.

(** * Properties *)

(** ** The size test of the Internet Archive loop *)

Lemma already_complete_spec w dest_path expected content :
  fs w !! dest_path = Some content ->
  already_complete w dest_path expected = true
  <-> (Z.abs (st_size content - expected) < 1024)%Z.
Proof.
  intros Hfs. unfold already_complete. rewrite Hfs. apply Z.ltb_lt.
Qed.

Lemma ia_item_skipped net identifier dest_dir pdf w :
  already_complete w (joinpath dest_dir (filename_of pdf)) (expected_size pdf) = true ->
  ia_item net identifier dest_dir pdf w = (Skipped, w).
Proof. intros H. unfold ia_item. by rewrite H. Qed.

Lemma download_file_trace net url dest w :
  exists tl, trace (download_file net url dest w).2 = (trace w ++ EvFetch url dest :: tl)%list.
Proof.
  unfold download_file. destruct (http_file net url) as [body|[part|]]; simpl.
  - exists [EvWrite dest]. by rewrite <- app_assoc.
  - exists [EvWrite dest]. by rewrite <- app_assoc.
  - by exists [].
Qed.

Lemma download_file_outcome net url dest w :
  (download_file net url dest w).1 = true <-> exists body, http_file net url = RespOk body.
Proof.
  unfold download_file. destruct (http_file net url) as [body|[part|]]; simpl;
    split; try done; eauto; by intros [? ?].
Qed.

Lemma ia_item_fetched net identifier dest_dir pdf w :
  already_complete w (joinpath dest_dir (filename_of pdf)) (expected_size pdf) = false ->
  ia_item net identifier dest_dir pdf w
  = (if (download_file net (ia_url identifier (filename_of pdf))
           (joinpath dest_dir (filename_of pdf)) w).1 then Downloaded else Failed,
     (download_file net (ia_url identifier (filename_of pdf))
        (joinpath dest_dir (filename_of pdf)) w).2).
Proof.
  intros H. unfold ia_item. rewrite H.
  by destruct (download_file _ _ _ _) as [ok w'].
Qed.

Lemma ia_item_tolerance net identifier dest_dir pdf w content :
  fs w !! joinpath dest_dir (filename_of pdf) = Some content ->
  let r := ia_item net identifier dest_dir pdf w in
  (r.1 = Skipped <-> (Z.abs (st_size content - expected_size pdf) < 1024)%Z)
  /\ ((Z.abs (st_size content - expected_size pdf) < 1024)%Z -> r.2 = w)
  /\ ((1024 <= Z.abs (st_size content - expected_size pdf))%Z ->
      r.1 = (if http_file net (ia_url identifier (filename_of pdf)) is RespOk _
             then Downloaded else Failed)
      /\ exists tl, trace r.2
           = (trace w ++ EvFetch (ia_url identifier (filename_of pdf))
                                 (joinpath dest_dir (filename_of pdf)) :: tl)%list).
Proof.
  intros Hfs r. subst r.
  pose proof (already_complete_spec w _ (expected_size pdf) _ Hfs) as Hspec.
  destruct (already_complete w (joinpath dest_dir (filename_of pdf)) (expected_size pdf)) eqn:Hc.
  - rewrite (ia_item_skipped _ _ _ _ _ Hc). simpl.
    assert (Z.abs (st_size content - expected_size pdf) < 1024)%Z by by apply Hspec.
    split_and!; [done|done|lia].
  - rewrite (ia_item_fetched _ _ _ _ _ Hc). simpl.
    assert (~ (Z.abs (st_size content - expected_size pdf) < 1024)%Z) as Hn
      by (intros H%Hspec; done).
    split_and!.
    + split; [|done]. unfold download_file.
      by destruct (http_file net _) as [?|[?|]].
    + done.
    + intros _. split; [|apply download_file_trace].
      unfold download_file. by destruct (http_file net _) as [?|[?|]].
Qed.

(** C3: an existing local file is skipped exactly when its size is within
    1024 bytes of the declared size, whatever the two sizes are; when the
    difference is 1024 bytes or more the file is requested again, and the
    outcome is that of the request. *)
Theorem C3_completeness_tolerance net identifier dest_dir pdf w content :
  fs w !! joinpath dest_dir (filename_of pdf) = Some content ->
  let r := ia_item net identifier dest_dir pdf w in
  (r.1 = Skipped <-> (Z.abs (st_size content - expected_size pdf) < 1024)%Z)
  /\ ((Z.abs (st_size content - expected_size pdf) < 1024)%Z -> r.2 = w)
  /\ ((1024 <= Z.abs (st_size content - expected_size pdf))%Z ->
      r.1 = (if http_file net (ia_url identifier (filename_of pdf)) is RespOk _
             then Downloaded else Failed)
      /\ exists tl, trace r.2
           = (trace w ++ EvFetch (ia_url identifier (filename_of pdf))
                                 (joinpath dest_dir (filename_of pdf)) :: tl)%list).
Proof. apply ia_item_tolerance. Qed.

Lemma C3_witness :
  let r := ia_item (ok_net "fresh") "item" "d" pdf_500 (world_a "0123456789") in
  (r.1 = Skipped <-> (Z.abs (st_size "0123456789" - expected_size pdf_500) < 1024)%Z)
  /\ ((Z.abs (st_size "0123456789" - expected_size pdf_500) < 1024)%Z
      -> r.2 = world_a "0123456789")
  /\ ((1024 <= Z.abs (st_size "0123456789" - expected_size pdf_500))%Z ->
      r.1 = (if http_file (ok_net "fresh") (ia_url "item" (filename_of pdf_500)) is RespOk _
             then Downloaded else Failed)
      /\ exists tl, trace r.2
           = (trace (world_a "0123456789")
              ++ EvFetch (ia_url "item" (filename_of pdf_500))
                         (joinpath "d" (filename_of pdf_500)) :: tl)%list).
Proof.
  apply (C3_completeness_tolerance (ok_net "fresh") "item" "d" pdf_500
           (world_a "0123456789") "0123456789").
  vm_compute. reflexivity.
Defined.

(** ** An entry without a size *)

(** C2, as the code has it: an entry without a size field has the expected
    size 0, and an existing local file is then skipped, with nothing
    requested, exactly when it is smaller than 1024 bytes; a local file of
    1024 bytes or more is requested again. *)
Theorem C2_absent_size_amended net identifier dest_dir pdf w content :
  ia_size pdf = None ->
  fs w !! joinpath dest_dir (filename_of pdf) = Some content ->
  let r := ia_item net identifier dest_dir pdf w in
  expected_size pdf = 0%Z
  /\ (r.1 = Skipped <-> (String.length content < 1024)%nat)
  /\ ((String.length content < 1024)%nat -> r.2 = w)
  /\ ((1024 <= String.length content)%nat ->
      exists tl, trace r.2
        = (trace w ++ EvFetch (ia_url identifier (filename_of pdf))
                              (joinpath dest_dir (filename_of pdf)) :: tl)%list).
Proof.
  intros Hsz Hfs r.
  assert (expected_size pdf = 0%Z) as He by (unfold expected_size; by rewrite Hsz).
  destruct (ia_item_tolerance net identifier dest_dir pdf w content Hfs) as (H1 & H2 & H3).
  fold r in H1, H2, H3. rewrite He in H1, H2, H3. unfold st_size in *.
  split_and!; [done| | |].
  - rewrite H1. lia.
  - intros ?. apply H2. lia.
  - intros ?. apply H3. lia.
Qed.

Lemma C2_witness :
  let r := ia_item (ok_net "fresh") "item" "d" pdf_nosize (world_a "0123456789") in
  expected_size pdf_nosize = 0%Z
  /\ (r.1 = Skipped <-> (String.length "0123456789" < 1024)%nat)
  /\ ((String.length "0123456789" < 1024)%nat -> r.2 = world_a "0123456789")
  /\ ((1024 <= String.length "0123456789")%nat ->
      exists tl, trace r.2
        = (trace (world_a "0123456789")
           ++ EvFetch (ia_url "item" (filename_of pdf_nosize))
                      (joinpath "d" (filename_of pdf_nosize)) :: tl)%list).
Proof.
  apply (C2_absent_size_amended (ok_net "fresh") "item" "d" pdf_nosize
           (world_a "0123456789") "0123456789").
  - reflexivity.
  - vm_compute. reflexivity.
Defined.

(** C2 as stated fails: the entry has no size, the local file exists and
    has 2000 bytes, and the item is requested and downloaded again. *)
Lemma C2_counterexample :
  ia_size pdf_nosize = None
  /\ fs (world_a bytes_2000) !! joinpath "d" (filename_of pdf_nosize) = Some bytes_2000
  /\ (ia_item (ok_net "fresh") "item" "d" pdf_nosize (world_a bytes_2000)).1 = Downloaded
  /\ trace (ia_item (ok_net "fresh") "item" "d" pdf_nosize (world_a bytes_2000)).2
     = [EvFetch "https://archive.org/download/item/a.pdf" "d/a.pdf"; EvWrite "d/a.pdf"].
Proof. split_and!; vm_compute; reflexivity. Qed.

(** ** Counters *)




(** ** The loop of the Internet Archive orchestrator *)



Lemma ia_loop_unfold net identifier dest_dir e rest stats w :
  ia_loop net identifier dest_dir (e :: rest) stats w
  = if size_raises e then (None, [], w)
    else
      let r1 := ia_item net identifier dest_dir (entry_file e) w in
      let r2 := ia_loop net identifier dest_dir rest (bump r1.1 stats) r1.2 in
      (r2.1.1, r1.1 :: r2.1.2, r2.2).
Proof.
  destruct e as [pdf|nm]; simpl; [|done].
  destruct (ia_item _ _ _ _ _) as [o w1]. simpl.
  by destruct (ia_loop _ _ _ _ _ _) as [[? ?] ?].
Qed.








(** An entry whose size cannot be read ends the loop where it stands: no
    counters are returned, and what the loop did is what it did for the
    entries before it. *)
Lemma ia_loop_raise net identifier dest_dir before e rest stats w :
  size_raises e = true ->
  let r := ia_loop net identifier dest_dir (before ++ e :: rest)%list stats w in
  r.1.1 = None
  /\ r.1.2 = (ia_loop net identifier dest_dir before stats w).1.2
  /\ r.2 = (ia_loop net identifier dest_dir before stats w).2.
Proof.
  intros Hr. revert stats w. induction before as [|e0 before IH]; intros stats w.
  - cbv zeta. rewrite app_nil_l, ia_loop_unfold, Hr. done.
  - rewrite <- app_comm_cons, !ia_loop_unfold. destruct (size_raises e0) eqn:Hr0.
    + simpl. done.
    + cbv zeta. simpl.
      destruct (IH (bump (ia_item net identifier dest_dir (entry_file e0) w).1 stats)
                   (ia_item net identifier dest_dir (entry_file e0) w).2) as (H1 & H2 & H3).
      split_and!; [done|by rewrite H2|done].
Qed.

(** ** The worker pool *)

Section Pool.
Context (net : network) (dest_dir : string).

Lemma pool_step_none (p : pool) i : p.1 !! i = None -> pool_step net dest_dir p i = p.
Proof. intros H. unfold pool_step. by rewrite H. Qed.

Lemma pool_step_some (p : pool) i f t :
  p.1 !! i = Some (f, t) ->
  pool_step net dest_dir p i
  = (<[i := (f, (task_step net dest_dir f t p.2).1)]> p.1, (task_step net dest_dir f t p.2).2).
Proof.
  intros H. unfold pool_step. rewrite H. by destruct (task_step _ _ _ _ _).
Qed.

Lemma pool_step_lookup_ne (p : pool) i j :
  i <> j -> (pool_step net dest_dir p i).1 !! j = p.1 !! j.
Proof.
  intros Hne. destruct (p.1 !! i) as [[f t]|] eqn:Hi.
  - rewrite (pool_step_some _ _ _ _ Hi). simpl. by apply list_lookup_insert_ne.
  - by rewrite (pool_step_none _ _ Hi).
Qed.

Lemma pool_step_lookup_eq (p : pool) i f t :
  p.1 !! i = Some (f, t) ->
  (pool_step net dest_dir p i).1 !! i = Some (f, (task_step net dest_dir f t p.2).1).
Proof.
  intros Hi. rewrite (pool_step_some _ _ _ _ Hi). simpl.
  apply list_lookup_insert_eq. by eapply lookup_lt_Some.
Qed.

Lemma pool_step_files (p : pool) i : (pool_step net dest_dir p i).1.*1 = p.1.*1.
Proof.
  destruct (p.1 !! i) as [[f t]|] eqn:Hi.
  - rewrite (pool_step_some _ _ _ _ Hi). simpl.
    rewrite list_fmap_insert. simpl. apply list_insert_id.
    by rewrite list_lookup_fmap, Hi.
  - by rewrite (pool_step_none _ _ Hi).
Qed.

Lemma pool_run_files (p : pool) sched :
  (foldl (pool_step net dest_dir) p sched).1.*1 = p.1.*1.
Proof.
  revert p. induction sched as [|i sched IH]; intros p; [done|].
  simpl. by rewrite IH, pool_step_files.
Qed.

Lemma pool_step_finished (p : pool) i j f o :
  p.1 !! j = Some (f, Finished o) ->
  (pool_step net dest_dir p i).1 !! j = Some (f, Finished o).
Proof.
  intros Hj. destruct (decide (i = j)) as [->|Hne].
  - by rewrite (pool_step_lookup_eq _ _ _ _ Hj).
  - by rewrite pool_step_lookup_ne.
Qed.

Lemma pool_two_steps (p : pool) i f t :
  p.1 !! i = Some (f, t) ->
  exists o, (pool_step net dest_dir (pool_step net dest_dir p i) i).1 !! i
            = Some (f, Finished o).
Proof.
  intros Hi. pose proof (pool_step_lookup_eq _ _ _ _ Hi) as H1.
  destruct t as [| |o].
  - simpl in H1. destruct (exists_ p.2 (dest_path_of dest_dir f)); simpl in H1.
    + exists Skipped. by apply pool_step_finished.
    + rewrite (pool_step_lookup_eq _ _ _ _ H1). simpl.
      destruct (fetch_and_normalize _ _ _ _) as [o w']. by exists o.
  - simpl in H1. destruct (fetch_and_normalize _ _ _ _) as [o w'] in H1. simpl in H1.
    exists o. by apply pool_step_finished.
  - exists o. by do 2 apply pool_step_finished.
Qed.

Lemma done_upto_step k (p : pool) i : done_upto k p -> done_upto k (pool_step net dest_dir p i).
Proof.
  intros Hd j f t Hj Hl.
  destruct (p.1 !! j) as [[f0 t0]|] eqn:Hpj.
  - destruct (Hd j f0 t0 Hj Hpj) as [o ->].
    rewrite (pool_step_finished _ i _ _ _ Hpj) in Hl. inversion Hl. by exists o.
  - apply lookup_ge_None in Hpj. apply lookup_lt_Some in Hl.
    assert (length (pool_step net dest_dir p i).1 = length p.1) as Hlen.
    { rewrite <- (length_fmap fst), pool_step_files. by rewrite length_fmap. }
    lia.
Qed.

Lemma drain_from m : forall k (p : pool),
  done_upto k p ->
  done_upto (k + m) (foldl (pool_step net dest_dir) p (flat_map (fun i => [i; i]) (seq k m))).
Proof.
  induction m as [|m IH]; intros k p Hd.
  - simpl. by rewrite Nat.add_0_r.
  - simpl. replace (k + S m)%nat with (S k + m)%nat by lia. apply IH.
    intros j f t Hj Hl. destruct (decide (j = k)) as [->|Hne].
    + destruct (lookup_lt_is_Some_2 p.1 k) as [[f0 t0] Hk].
      { apply lookup_lt_Some in Hl.
        rewrite <- (length_fmap fst), !pool_step_files, length_fmap in Hl. done. }
      destruct (pool_two_steps _ _ _ _ Hk) as [o Ho]. rewrite Ho in Hl.
      inversion Hl. by exists o.
    + assert (j < k)%nat as Hlt by lia.
      by apply (done_upto_step k _ k (done_upto_step k _ k Hd) j f t Hlt).
Qed.

Lemma run_pool_done sched json_files w :
  done_upto (length json_files) (run_pool net dest_dir sched json_files w).
Proof.
  unfold run_pool, drain_schedule. rewrite foldl_app.
  apply (drain_from _ 0). intros j f t Hj. lia.
Qed.

Lemma run_pool_files sched json_files w :
  (run_pool net dest_dir sched json_files w).1.*1 = json_files.
Proof.
  unfold run_pool. rewrite pool_run_files. simpl.
  rewrite <- list_fmap_compose. apply list_fmap_id.
Qed.

End Pool.



(** ** Facts about strings *)

Lemma str_app_assoc (a b c : string) : (a ++ b) ++ c = a ++ (b ++ c).
Proof. induction a as [|x a IH]; simpl; [done|by rewrite IH]. Qed.

Lemma str_app_length (a b : string) :
  String.length (a ++ b) = (String.length a + String.length b)%nat.
Proof. induction a as [|x a IH]; simpl; [done|by rewrite IH]. Qed.

Lemma str_take_app (a b : string) : PyStr.take (String.length a) (a ++ b) = a.
Proof. induction a as [|x a IH]; [by destruct b|]. simpl. by rewrite IH. Qed.

Lemma txt_path_not_report BASE_DIR rel_path :
  txt_path_of BASE_DIR rel_path <> report_path BASE_DIR.
Proof.
  unfold txt_path_of, report_path, joinpath. rewrite !str_app_assoc.
  intros H. apply (inj (String.app _)) in H. discriminate H.
Qed.

(** ** Files that are left alone *)

Lemma keeps_refl p w : keeps p w w.
Proof.
  split; [done|]. exists []. rewrite app_nil_r. split; [done|]. apply not_elem_of_nil.
Qed.

Lemma keeps_trans p w0 w1 w2 : keeps p w0 w1 -> keeps p w1 w2 -> keeps p w0 w2.
Proof.
  intros [Hf1 (a1 & Ht1 & Hn1)] [Hf2 (a2 & Ht2 & Hn2)]. split; [congruence|].
  exists (a1 ++ a2)%list. rewrite Ht2, Ht1, app_assoc. split; [done|].
  rewrite elem_of_app. tauto.
Qed.

Lemma keeps_write p q content w : q <> p -> keeps p w (write_file q content w).
Proof.
  intros Hne. split; simpl.
  - by apply lookup_insert_ne.
  - exists [EvWrite q]. split; [done|]. rewrite list_elem_of_singleton. congruence.
Qed.

Lemma exists_is_Some w p : exists_ w p = true <-> is_Some (fs w !! p).
Proof. unfold exists_. apply bool_decide_eq_true. Qed.

Lemma exists_None w p : exists_ w p = false <-> fs w !! p = None.
Proof.
  unfold exists_. rewrite bool_decide_eq_false. rewrite <- eq_None_not_Some. done.
Qed.

(** *** The extraction loop *)

Lemma extract_item_skips BASE_DIR b pdf_path w :
  is_Some (fs w !! txt_path_of BASE_DIR (relative_to (pdf_dir BASE_DIR) pdf_path)) ->
  extract_item BASE_DIR b pdf_path w = (AlreadyExtracted, [], w).
Proof. intros H%exists_is_Some. unfold extract_item. cbv zeta. by rewrite H. Qed.

Lemma extract_item_keeps BASE_DIR b pdf_path w p :
  is_Some (fs w !! p) -> keeps p w (extract_item BASE_DIR b pdf_path w).2.
Proof.
  intros Hp. unfold extract_item. cbv zeta.
  destruct (exists_ w _) eqn:He; simpl; [apply keeps_refl|].
  destruct (extract_pdf_text b pdf_path) as [[text m]|]; simpl; [|apply keeps_refl].
  apply keeps_write. intros Heq. rewrite Heq in He. apply exists_None in He.
  rewrite He in Hp. by destruct Hp.
Qed.

Lemma extract_loop_unfold BASE_DIR b pdf_path rest stats finds w :
  extract_loop BASE_DIR b (pdf_path :: rest) stats finds w
  = let r1 := extract_item BASE_DIR b pdf_path w in
    let r2 := extract_loop BASE_DIR b rest (xbump r1.1.1 stats) (finds ++ r1.1.2) r1.2 in
    (r2.1.1.1, r2.1.1.2, r1.1.1 :: r2.1.2, r2.2).
Proof.
  simpl. destruct (extract_item _ _ _ _) as [[o new] w1]. simpl.
  by destruct (extract_loop _ _ _ _ _ _) as [[[? ?] ?] ?].
Qed.

Lemma keeps_is_Some p w0 w : keeps p w0 w -> is_Some (fs w0 !! p) -> is_Some (fs w !! p).
Proof. intros [Hf _] H. by rewrite Hf. Qed.

Lemma extract_loop_keeps BASE_DIR b pdfs stats finds w p :
  is_Some (fs w !! p) -> keeps p w (extract_loop BASE_DIR b pdfs stats finds w).2.
Proof.
  revert stats finds w. induction pdfs as [|pdf_path rest IH]; intros stats finds w Hp.
  - apply keeps_refl.
  - rewrite extract_loop_unfold. simpl.
    pose proof (extract_item_keeps BASE_DIR b pdf_path w p Hp) as H1.
    eapply keeps_trans; [exact H1|]. apply IH. by eapply keeps_is_Some.
Qed.

Lemma extract_all_pdfs_keeps BASE_DIR b w p :
  is_Some (fs w !! p) -> p <> report_path BASE_DIR ->
  keeps p w (extract_all_pdfs BASE_DIR b w).2.
Proof.
  intros Hp Hne. unfold extract_all_pdfs.
  pose proof (extract_loop_keeps BASE_DIR b (pdfs_of BASE_DIR w) (mkXStats 0 0 0) [] w p Hp) as H.
  destruct (extract_loop _ _ _ _ _ _) as [[[stats finds] os] w1]. simpl in H.
  destruct finds; simpl; [done|].
  eapply keeps_trans; [exact H|]. apply keeps_write. congruence.
Qed.

(** *** The worker pool *)

Section PoolKeeps.
Context (net : network) (dest_dir : string) (q : string) (w0 : world).
Hypothesis q_exists : is_Some (fs w0 !! q).

Lemma fetch_and_normalize_keeps dest_path f w :
  dest_path <> q -> keeps q w (fetch_and_normalize net dest_path f w).2.
Proof.
  intros Hne. unfold fetch_and_normalize.
  destruct (http_record net (download_url f)) as [r|]; simpl; [|apply keeps_refl].
  destruct (record_empty r); simpl; [apply keeps_refl|].
  destruct (normalize r); simpl; by apply keeps_write.
Qed.

Lemma pool_inv_step (p : pool) i : pool_inv dest_dir q w0 p -> pool_inv dest_dir q w0 (pool_step net dest_dir p i).
Proof.
  intros [Hk Ht]. destruct (p.1 !! i) as [[f t]|] eqn:Hi.
  2:{ by rewrite (pool_step_none _ _ _ _ Hi). }
  assert (is_Some (fs p.2 !! q)) as Hq by by eapply keeps_is_Some.
  assert (keeps q p.2 (task_step net dest_dir f t p.2).2
          /\ (dest_path_of dest_dir f = q ->
              (task_step net dest_dir f t p.2).1 = Queued
              \/ (task_step net dest_dir f t p.2).1 = Finished Skipped)) as [Hk' Ht'].
  { destruct (decide (dest_path_of dest_dir f = q)) as [Heq|Hne].
    - destruct (Ht i f t Hi Heq) as [->| ->]; simpl.
      + rewrite Heq. apply exists_is_Some in Hq. rewrite Hq. simpl.
        split; [apply keeps_refl|by right].
      + split; [apply keeps_refl|by right].
    - split; [|done]. destruct t; simpl.
      + destruct (exists_ _ _); apply keeps_refl.
      + pose proof (fetch_and_normalize_keeps _ f p.2 Hne) as H.
        by destruct (fetch_and_normalize _ _ _ _).
      + apply keeps_refl. }
  rewrite (pool_step_some _ _ _ _ _ _ Hi). split; simpl.
  - by eapply keeps_trans.
  - intros j f' t' Hj Hd. destruct (decide (i = j)) as [<-|Hne].
    + rewrite list_lookup_insert_eq in Hj by by eapply lookup_lt_Some.
      inversion Hj; subst. by apply Ht'.
    + rewrite list_lookup_insert_ne in Hj by done. by eapply Ht.
Qed.

Lemma pool_inv_run (p : pool) sched :
  pool_inv dest_dir q w0 p -> pool_inv dest_dir q w0 (foldl (pool_step net dest_dir) p sched).
Proof.
  revert p. induction sched as [|i sched IH]; intros p Hp; [done|].
  simpl. apply IH. by apply pool_inv_step.
Qed.

Lemma run_pool_inv sched json_files :
  pool_inv dest_dir q w0 (run_pool net dest_dir sched json_files w0).
Proof.
  unfold run_pool. apply pool_inv_run. split; simpl; [apply keeps_refl|].
  intros i f t Hi _. rewrite list_lookup_fmap in Hi.
  destruct (json_files !! i); simpl in Hi; inversion Hi. by left.
Qed.

Lemma download_github_folder_keeps sched folder :
  let r := download_github_folder net sched folder dest_dir w0 in
  keeps q w0 r.2
  /\ forall i f t, r.1.2 !! i = Some (f, t) -> dest_path_of dest_dir f = q ->
       t = Finished Skipped.
Proof.
  unfold download_github_folder.
  destruct (http_listing net (github_api_url folder)) as [[|f0 data]|]; simpl.
  - split; [apply keeps_refl|]. intros i f t Hi. by rewrite lookup_nil in Hi.
  - set (files := json_files_of (f0 :: data)).
    destruct (run_pool_inv sched files) as [Hk Ht]. split; [done|].
    intros i f t Hi Hd.
    destruct (run_pool_done net dest_dir sched files w0 i f t) as [o ->]; [|done|].
    { apply lookup_lt_Some in Hi.
      by rewrite <- (length_fmap fst), run_pool_files in Hi. }
    destruct (Ht i f _ Hi Hd) as [?|?]; [done|done].
  - split; [apply keeps_refl|]. intros i f t Hi. by rewrite lookup_nil in Hi.
Qed.

End PoolKeeps.



Lemma extract_all_pdfs_outcomes BASE_DIR b w :
  (extract_all_pdfs BASE_DIR b w).1.2
  = (extract_loop BASE_DIR b (pdfs_of BASE_DIR w) (mkXStats 0 0 0) [] w).1.2.
Proof.
  unfold extract_all_pdfs.
  destruct (extract_loop _ _ _ _ _ _) as [[[stats finds] os] w1]. by destruct finds.
Qed.



Example demo_extract_run :
  (extract_all_pdfs demo_base demo_backend demo_world).1.2 = [AlreadyExtracted]
  /\ pdfs_of demo_base demo_world = ["/data/documents/internet_archive/src/a.pdf"].
Proof. split; vm_compute; reflexivity. Qed.

Example demo_folder_run :
  (download_github_folder demo_net [] "IMAGES001" "d" demo_world).1
  = (mkStats 0 1 0, [(mkFileInfo "x.json" "https://raw.example/x.json", Finished Skipped)]).
Proof. vm_compute. reflexivity. Qed.

(** ** Running a synchronisation twice *)




Section PoolDone.
Context (net : network) (dest_dir : string).





End PoolDone.







(** *** The Internet Archive loop, twice *)













Lemma download_from_internet_archive_cases BASE_DIR net source_key w :
  let r := download_from_internet_archive BASE_DIR net source_key w in
  (ia_metadata_missing net source_key = false
   /\ r = ia_loop net (ia_identifier source_key) (ia_dest_dir BASE_DIR source_key)
            (ia_entries net source_key) zero_stats w)
  \/ (ia_metadata_missing net source_key = true
      /\ r = (Some (mkStats 0 0 1), [], w) /\ ia_entries net source_key = []).
Proof.
  unfold download_from_internet_archive, ia_entries, ia_identifier, ia_metadata_missing.
  destruct (lookup_source source_key IA_SOURCES) as [source|]; simpl; [|by left].
  destruct (http_metadata net _) as [md|]; simpl; [|by right].
  destruct (files md) as [l|] eqn:Hfiles; simpl.
  - left. split; [done|]. by destruct (pdf_files_of md) as [|[?|?] ?].
  - assert (pdf_files_of md = []) as -> by (unfold pdf_files_of; by rewrite Hfiles).
    destruct (other_fields md =? 0)%nat; [by right|by left].
Qed.




Example two_runs_with_size :
  let r1 := download_from_internet_archive demo_base (archive_net (Some 5%Z) "fresh")
              "phone_book" empty_world in
  let r2 := download_from_internet_archive demo_base (archive_net (Some 5%Z) "fresh")
              "phone_book" r1.2 in
  r1.1 = (Some (mkStats 1 0 0), [Downloaded]) /\ r2.1 = (Some (mkStats 0 1 0), [Skipped]).
Proof. split; vm_compute; reflexivity. Qed.

Example two_runs_github :
  let r1 := download_github_folder demo_net [0; 0]%nat "IMAGES001" "d" empty_world in
  let r2 := download_github_folder demo_net [] "IMAGES001" "d" r1.2 in
  r1.1.1 = mkStats 1 0 0 /\ r2.1.1 = mkStats 0 1 0.
Proof. split; vm_compute; reflexivity. Qed.


(** ** One outcome per item *)




Example loop_with_sizes :
  ia_loop (ok_net "fresh") "item" "d" [Readable pdf_500; Readable pdf_b] zero_stats
          (world_a "0123456789")
  = (Some (mkStats 1 1 0), [Skipped; Downloaded],
     mkWorld {[ "d/a.pdf" := "0123456789"; "d/b.pdf" := "fresh" ]}
             [EvFetch "https://archive.org/download/item/b.pdf" "d/b.pdf"; EvWrite "d/b.pdf"]).
Proof. vm_compute. reflexivity. Qed.


(** ** Derived names of the GitHub records *)

Lemma download_one_checks_derived net dest_dir f w :
  (download_one net dest_dir f w).1 = Skipped
  <-> is_Some (fs w !! joinpath dest_dir (PyStr.replace ".json" ".txt" (name f))).
Proof.
  unfold download_one. cbv zeta. fold (txt_filename (name f)).
  fold (dest_path_of dest_dir f). rewrite <- exists_is_Some.
  destruct (exists_ w _); simpl; [done|]. split; [|done].
  unfold fetch_and_normalize.
  destruct (http_record net _) as [r|]; [|done].
  destruct (record_empty r); [done|]. by destruct (normalize r).
Qed.

(** C5 at the name [a.json.json]: the name is eligible, the code derives
    [a.txt.txt] from it where replacing the extension gives [a.json.txt],
    and the eligible name [a.txt.json] is sent to the same file. *)
Theorem C5_derived_name_all_occurrences :
  PyStr.endswith ".json" "a.json.json" = true
  /\ txt_filename "a.json.json" = "a.txt.txt"
  /\ replace_extension_spec "a.json.json" = "a.json.txt"
  /\ txt_filename "a.json.json" <> replace_extension_spec "a.json.json"
  /\ txt_filename "a.txt.json" = txt_filename "a.json.json"
  /\ txt_filename "x.json" = replace_extension_spec "x.json".
Proof. split_and!; vm_compute; congruence. Qed.

(** ** The record normalizer *)

(** C6: the record with metadata [a], [b], no entity and the text [hello]
    is rendered with the line [a: 1] before the line [b: 2], without an
    ENTITIES header, and ends with [hello] right after the FULL TEXT
    header; an absent [full_text], [document_metadata] or [entities] key
    is rendered as the empty string and the empty mappings are, and a
    record without any of them is still rendered and written. *)
Theorem C6_normalizer_determinism :
  normalize demo_record = Some text_ab
  /\ (let lines := (render_head demo_record ++ ["hello"])%list in
      lines !! 3%nat = Some "a: 1" /\ lines !! 4%nat = Some "b: 2"
      /\ ("ENTITIES" ∉ lines)
      /\ lines !! 6%nat = Some "FULL TEXT" /\ lines !! 8%nat = Some "hello"
      /\ length lines = 9%nat)
  /\ PyStr.contains "ENTITIES" text_ab = false
  /\ PyStr.endswith ("FULL TEXT" ++ nl ++ rule "=" ++ nl ++ "hello") text_ab = true
  /\ (forall ft md en k,
        normalize (mkRecord None md en k) = normalize (mkRecord (Some (SStr "")) md en k)
        /\ normalize (mkRecord ft None en k) = normalize (mkRecord ft (Some []) en k)
        /\ normalize (mkRecord ft md None k) = normalize (mkRecord ft md (Some []) k))
  /\ (forall k, normalize (mkRecord None None None k)
        = Some (PyStr.join nl [rule "="; "DOCUMENT METADATA"; rule "=";
                               nl ++ rule "="; "FULL TEXT"; rule "="; ""]))
  /\ (forall net dest_path f w,
        http_record net (download_url f) = Some record_without_keys ->
        (fetch_and_normalize net dest_path f w).1 = Downloaded).
Proof.
  split_and!.
  - vm_compute. reflexivity.
  - cbv zeta. split_and!; try (vm_compute; reflexivity).
    intros H. vm_compute in H. repeat (apply elem_of_cons in H as [H|H]; [discriminate H|]).
    by apply elem_of_nil in H.
  - vm_compute. reflexivity.
  - vm_compute. reflexivity.
  - intros ft md en k. split_and!; reflexivity.
  - intros k. reflexivity.
  - intros net dest_path f w H. unfold fetch_and_normalize. by rewrite H.
Qed.

(** ** The walk of the extraction loop *)

Lemma pdfs_of_spec BASE_DIR w p :
  p ∈ pdfs_of BASE_DIR w
  <-> is_Some (fs w !! p)
      /\ PyStr.startswith (pdf_dir BASE_DIR ++ "/") p = true
      /\ (PyStr.endswith ".pdf" p = true \/ PyStr.endswith ".PDF" p = true).
Proof.
  unfold pdfs_of, rglob. rewrite elem_of_app, !list_elem_of_filter.
  rewrite !andb_true_iff.
  assert (p ∈ (map_to_list (fs w)).*1 <-> is_Some (fs w !! p)) as ->.
  { rewrite list_elem_of_fmap. split.
    - intros [[k v] [-> Hin%elem_of_map_to_list]]. eauto.
    - intros [v Hv]. exists (p, v). split; [done|]. by apply elem_of_map_to_list. }
  tauto.
Qed.

(** C9 at a file named [doc.Pdf]: the filter of the downloader accepts the
    name, the walk of the extraction leaves the file out, on its own and
    next to [a.pdf] and [b.PDF], and a run over the tree extracts
    nothing. *)
Theorem C9_mixed_case_not_selected :
  is_pdf_entry (mkIaFile (Some "doc.Pdf") None) = true
  /\ pdfs_of demo_base mixed_case_world = []
  /\ pdfs_of demo_base three_cases_world
     = [ "/data/documents/internet_archive/src/a.pdf";
         "/data/documents/internet_archive/src/b.PDF" ]
  /\ ("/data/documents/internet_archive/src/doc.Pdf" ∉ pdfs_of demo_base three_cases_world)
  /\ extract_all_pdfs demo_base demo_backend mixed_case_world
     = (mkXStats 0 0 0, [], [], mixed_case_world).
Proof.
  split_and!; try (vm_compute; reflexivity).
  rewrite pdfs_of_spec. intros (_ & _ & [H|H]); vm_compute in H; discriminate H.
Qed.

(** ** The pattern scan *)

Lemma scan_patterns_file pats rel_path text f :
  f ∈ scan_patterns pats rel_path text -> file f = rel_path.
Proof.
  induction pats as [|[pattern desc] rest IH]; simpl; [by intros ?%elem_of_nil|].
  destruct (Re.findall pattern text); [done|].
  by intros ->%list_elem_of_singleton.
Qed.

Lemma scan_patterns_phone rel_path text :
  Re.findall Re.phone text <> [] ->
  scan_patterns patterns rel_path text
  = [mkFinding rel_path "phone numbers" (firstn 5 (Re.findall Re.phone text))].
Proof. intros H. unfold patterns. simpl. by destruct (Re.findall Re.phone text). Qed.

#[local] Arguments scan_patterns : simpl never.

Lemma filter_file_all rel_path (l : list finding) :
  (forall f, f ∈ l -> file f = rel_path) -> filter (fun f => file f = rel_path) l = l.
Proof.
  induction l as [|f l IH]; intros H; [done|].
  rewrite filter_cons_True by (apply H; apply list_elem_of_here).
  f_equal. apply IH. intros f' ?. apply H. by apply list_elem_of_further.
Qed.

Lemma filter_file_none rel_path rel' (l : list finding) :
  rel' <> rel_path -> (forall f, f ∈ l -> file f = rel') ->
  filter (fun f => file f = rel_path) l = [].
Proof.
  intros Hne. induction l as [|f l IH]; intros H; [done|].
  rewrite filter_cons_False.
  - apply IH. intros f' ?. apply H. by apply list_elem_of_further.
  - rewrite (H f) by apply list_elem_of_here. done.
Qed.

Lemma extract_item_finds_file BASE_DIR b pdf_path w f :
  f ∈ (extract_item BASE_DIR b pdf_path w).1.2 ->
  file f = relative_to (pdf_dir BASE_DIR) pdf_path.
Proof.
  unfold extract_item. cbv zeta.
  destruct (exists_ w _); cbn [fst snd]; [by intros ?%elem_of_nil|].
  destruct (extract_pdf_text b pdf_path) as [[text m]|]; cbn [fst snd];
    [|by intros ?%elem_of_nil].
  apply scan_patterns_file.
Qed.

Lemma extract_item_processed BASE_DIR b pdf_path w text m :
  (extract_item BASE_DIR b pdf_path w).1.1 = Processed ->
  extract_pdf_text b pdf_path = Some (text, m) ->
  (extract_item BASE_DIR b pdf_path w).1.2
  = scan_patterns patterns (relative_to (pdf_dir BASE_DIR) pdf_path) text.
Proof.
  unfold extract_item. cbv zeta. destruct (exists_ w _); cbn [fst snd]; [done|].
  intros _ ->. done.
Qed.

Section Finds.
Context (BASE_DIR : string) (b : backend) (rel_path : string).

Abbreviation mine := (filter (fun f => file f = rel_path)).

Lemma extract_loop_finds_others pdfs stats finds w :
  (forall pdf, pdf ∈ pdfs -> relative_to (pdf_dir BASE_DIR) pdf <> rel_path) ->
  mine (extract_loop BASE_DIR b pdfs stats finds w).1.1.2 = mine finds.
Proof.
  revert stats finds w. induction pdfs as [|pdf rest IH]; intros stats finds w Hne; [done|].
  rewrite extract_loop_unfold. simpl. rewrite IH.
  - rewrite filter_app.
    rewrite (filter_file_none rel_path (relative_to (pdf_dir BASE_DIR) pdf)
               (extract_item BASE_DIR b pdf w).1.2).
    + by rewrite app_nil_r.
    + apply Hne. apply list_elem_of_here.
    + intros f. apply extract_item_finds_file.
  - intros pdf' ?. apply Hne. by apply list_elem_of_further.
Qed.

Lemma extract_loop_finds_mine pdfs stats finds w i pdf_path text m :
  NoDup (relative_to (pdf_dir BASE_DIR) <$> pdfs) ->
  pdfs !! i = Some pdf_path ->
  relative_to (pdf_dir BASE_DIR) pdf_path = rel_path ->
  (extract_loop BASE_DIR b pdfs stats finds w).1.2 !! i = Some Processed ->
  extract_pdf_text b pdf_path = Some (text, m) ->
  mine (extract_loop BASE_DIR b pdfs stats finds w).1.1.2
  = (mine finds ++ scan_patterns patterns rel_path text)%list.
Proof.
  revert stats finds w i.
  induction pdfs as [|pdf0 rest IH]; intros stats finds w i Hnd Hi Hrel Ho Hx.
  - by rewrite lookup_nil in Hi.
  - rewrite extract_loop_unfold in Ho |- *. simpl in Ho |- *.
    rewrite fmap_cons in Hnd. apply NoDup_cons in Hnd as [Hnotin Hnd].
    destruct i as [|i]; simpl in Hi, Ho.
    + inversion Hi; subst pdf0. inversion Ho as [Ho'].
      rewrite extract_loop_finds_others.
      * rewrite filter_app. f_equal.
        rewrite (extract_item_processed _ _ _ _ text m Ho' Hx), Hrel.
        apply filter_file_all. intros f. apply scan_patterns_file.
      * intros pdf' Hin Heq. apply Hnotin. rewrite Hrel, <- Heq.
        by apply list_elem_of_fmap_2.
    + rewrite (IH _ _ _ i Hnd Hi Hrel Ho Hx). f_equal.
      rewrite filter_app.
      rewrite (filter_file_none rel_path (relative_to (pdf_dir BASE_DIR) pdf0)
                 (extract_item BASE_DIR b pdf0 w).1.2).
      * by rewrite app_nil_r.
      * intros Heq. apply Hnotin. rewrite Heq, <- Hrel.
        apply list_elem_of_fmap_2. by eapply list_elem_of_lookup_2.
      * intros f. apply extract_item_finds_file.
Qed.

End Finds.

(** *** The walk has no duplicate *)

Lemma endswith_eq suf s :
  PyStr.endswith suf s = true ->
  PyStr.drop (String.length s - String.length suf) s = suf.
Proof. unfold PyStr.endswith. intros [_ H]%andb_true_iff. by apply String.eqb_eq. Qed.

Lemma startswith_split a p :
  PyStr.startswith a p = true -> p = a ++ PyStr.drop (String.length a) p.
Proof.
  revert p. induction a as [|c a IH]; intros p; simpl; [done|].
  destruct p as [|c' p]; [done|]. intros [Hc Hp]%andb_true_iff.
  apply Ascii.eqb_eq in Hc as ->. f_equal. by apply IH.
Qed.

Lemma rglob_NoDup w dir ext : NoDup (rglob w dir ext).
Proof. unfold rglob. apply NoDup_filter. apply NoDup_fst_map_to_list. Qed.

Lemma pdfs_of_NoDup BASE_DIR w : NoDup (pdfs_of BASE_DIR w).
Proof.
  unfold pdfs_of. apply NoDup_app. split_and!; [apply rglob_NoDup| |apply rglob_NoDup].
  unfold rglob. intros p [H1 _]%list_elem_of_filter [H2 _]%list_elem_of_filter.
  apply andb_true_iff in H1 as [_ H1]. apply andb_true_iff in H2 as [_ H2].
  apply endswith_eq in H1. apply endswith_eq in H2. simpl in H1, H2. congruence.
Qed.

Lemma pdfs_of_prefix BASE_DIR w p :
  p ∈ pdfs_of BASE_DIR w -> PyStr.startswith (pdf_dir BASE_DIR ++ "/") p = true.
Proof. rewrite pdfs_of_spec. tauto. Qed.

Lemma relative_to_inj dir p1 p2 :
  PyStr.startswith (dir ++ "/") p1 = true ->
  PyStr.startswith (dir ++ "/") p2 = true ->
  relative_to dir p1 = relative_to dir p2 -> p1 = p2.
Proof.
  intros H1%startswith_split H2%startswith_split. unfold relative_to.
  rewrite str_app_length in H1, H2. simpl in H1, H2. intros Heq.
  rewrite H1, H2. by rewrite Heq.
Qed.

Lemma pdfs_of_rel_NoDup BASE_DIR w :
  NoDup (relative_to (pdf_dir BASE_DIR) <$> pdfs_of BASE_DIR w).
Proof.
  apply NoDup_fmap_2_strong; [|apply pdfs_of_NoDup].
  intros p1 p2 H1%pdfs_of_prefix H2%pdfs_of_prefix. by apply relative_to_inj.
Qed.

Lemma extract_all_pdfs_finds BASE_DIR b w :
  (extract_all_pdfs BASE_DIR b w).1.1.2
  = (extract_loop BASE_DIR b (pdfs_of BASE_DIR w) (mkXStats 0 0 0) [] w).1.1.2.
Proof.
  unfold extract_all_pdfs.
  destruct (extract_loop _ _ _ _ _ _) as [[[stats finds] os] w1]. by destruct finds.
Qed.

Lemma extract_all_pdfs_report BASE_DIR b w :
  (extract_all_pdfs BASE_DIR b w).1.1.2 <> [] ->
  fs (extract_all_pdfs BASE_DIR b w).2 !! report_path BASE_DIR
  = Some (json_dump (extract_all_pdfs BASE_DIR b w).1.1.2).
Proof.
  unfold extract_all_pdfs.
  destruct (extract_loop _ _ _ _ _ _) as [[[stats finds] os] w1].
  destruct finds as [|f finds]; [done|]. intros _. simpl. by rewrite lookup_insert_eq.
Qed.

(** C7: a document of the walk that the run extracts and whose text has
    both a phone match and an email match gets exactly one entry in the
    findings of the run, of the phone family, holding the first five phone
    matches at most, and the report file is the dump of these findings. *)
Theorem C7_first_family_only BASE_DIR b w i pdf_path text m :
  pdfs_of BASE_DIR w !! i = Some pdf_path ->
  (extract_all_pdfs BASE_DIR b w).1.2 !! i = Some Processed ->
  extract_pdf_text b pdf_path = Some (text, m) ->
  Re.findall Re.phone text <> [] ->
  Re.findall Re.email text <> [] ->
  let r := extract_all_pdfs BASE_DIR b w in
  let rel_path := relative_to (pdf_dir BASE_DIR) pdf_path in
  filter (fun f => file f = rel_path) r.1.1.2
  = [mkFinding rel_path "phone numbers" (firstn 5 (Re.findall Re.phone text))]
  /\ (length (firstn 5 (Re.findall Re.phone text)) <= 5)%nat
  /\ fs r.2 !! report_path BASE_DIR = Some (json_dump r.1.1.2).
Proof.
  intros Hi Ho Hx Hphone _ r rel_path.
  assert (filter (fun f => file f = rel_path) r.1.1.2
          = [mkFinding rel_path "phone numbers" (firstn 5 (Re.findall Re.phone text))]) as Hf.
  { subst r. rewrite extract_all_pdfs_finds. rewrite extract_all_pdfs_outcomes in Ho.
    rewrite (extract_loop_finds_mine BASE_DIR b rel_path _ _ _ _ i pdf_path text m
               (pdfs_of_rel_NoDup BASE_DIR w) Hi eq_refl Ho Hx).
    simpl. by apply scan_patterns_phone. }
  split_and!; [done| |].
  - rewrite length_take. lia.
  - apply extract_all_pdfs_report. fold r. intros Hnil. by rewrite Hnil in Hf.
Qed.

Lemma C7_witness :
  let r := extract_all_pdfs demo_base scan_backend scan_world in
  let rel_path := relative_to (pdf_dir demo_base) "/data/documents/internet_archive/src/a.pdf" in
  filter (fun f => file f = rel_path) r.1.1.2
  = [mkFinding rel_path "phone numbers" (firstn 5 (Re.findall Re.phone phone_and_email_text))]
  /\ (length (firstn 5 (Re.findall Re.phone phone_and_email_text)) <= 5)%nat
  /\ fs r.2 !! report_path demo_base = Some (json_dump r.1.1.2).
Proof.
  apply (C7_first_family_only demo_base scan_backend scan_world 0
           "/data/documents/internet_archive/src/a.pdf" phone_and_email_text
           (mkMeta (Some 1%nat) (Some 0%nat))).
  - vm_compute. reflexivity.
  - vm_compute. reflexivity.
  - vm_compute. reflexivity.
  - vm_compute. discriminate.
  - vm_compute. discriminate.
Defined.

Example scan_run :
  (extract_all_pdfs demo_base scan_backend scan_world).1.1.2
  = [mkFinding "src/a.pdf" "phone numbers"
       ["212-555-0100"; "2125550101"; "212.555.0102"; "2125550103"; "212-555-0104"]]
  /\ Re.findall Re.email phone_and_email_text = ["jane.doe@example.com"]
  /\ length (Re.findall Re.phone phone_and_email_text) = 6%nat.
Proof. split_and!; vm_compute; reflexivity. Qed.

(** ** The corpus search *)



Lemma contains_unfold t x :
  PyStr.contains t x
  = PyStr.startswith t x
    || match x with "" => false | String _ x' => PyStr.contains t x' end.
Proof. by destruct x. Qed.



Lemma split_head sep s : exists h tl post, PyStr.split sep s = h :: tl /\ s = h ++ post.
Proof.
  induction s as [|c s (h & tl & post & Hs & Hp)]; simpl.
  - by exists "", [], "".
  - rewrite Hs. destruct (Ascii.eqb c sep).
    + by exists "", (h :: tl), (String c s).
    + exists (String c h), tl, post. simpl. by rewrite <- Hp.
Qed.



Lemma line_matches_eq term content :
  line_matches term content = omap (match_of term) (imap pair (PyStr.split "010" content)).
Proof. done. Qed.



Lemma line_matches_elem term content n t :
  (n, t) ∈ line_matches term content
  <-> exists j l, PyStr.split "010" content !! j = Some l
        /\ PyStr.contains (PyStr.lower term) (PyStr.lower l) = true
        /\ n = (j + 1)%nat /\ t = PyStr.take 100 (PyStr.strip l).
Proof.
  rewrite line_matches_eq, list_elem_of_omap. split.
  - intros ([j l] & Hin & Hm). apply list_elem_of_lookup in Hin as [k Hk].
    rewrite list_lookup_imap in Hk.
    destruct (PyStr.split "010" content !! k) as [l'|] eqn:Hl; [|done].
    simpl in Hk. inversion Hk; subst j l'. unfold match_of in Hm. simpl in Hm.
    destruct (PyStr.contains _ _) eqn:Hc; [|done]. inversion Hm. by exists k, l.
  - intros (j & l & Hl & Hc & -> & ->). exists (j, l). split.
    + apply list_elem_of_lookup. exists j. by rewrite list_lookup_imap, Hl.
    + unfold match_of. simpl. by rewrite Hc.
Qed.




Example search_line_5 :
  search_all demo_base "trump" corpus_world
  = [("extracted_text/pdf_text/src/a.txt", [(5%nat, "Contact: trump@example.com")])].
Proof. vm_compute. reflexivity. Qed.


(** ** Names with a single extension *)

Lemma startswith_short p a b :
  PyStr.startswith p (a ++ b) = true -> (String.length p <= String.length a)%nat ->
  PyStr.startswith p a = true.
Proof.
  revert a. induction p as [|c p IH]; intros a; [done|].
  destruct a as [|c' a]; simpl; [lia|].
  intros [Hc Hp]%andb_true_iff Hlen. rewrite Hc. simpl. apply IH; [done|lia].
Qed.

(** Where [.json] occurs at the end of the name only, the code replaces
    the extension. *)
Lemma txt_filename_single_extension stem :
  PyStr.contains ".json" (stem ++ ".jso") = false ->
  txt_filename (stem ++ ".json") = stem ++ ".txt"
  /\ txt_filename (stem ++ ".json") = replace_extension_spec (stem ++ ".json").
Proof.
  intros H.
  assert (txt_filename (stem ++ ".json") = stem ++ ".txt") as Heq.
  { unfold txt_filename, PyStr.replace. induction stem as [|c stem IH]; [done|].
    rewrite contains_unfold in H. apply orb_false_iff in H as [Hs Hc].
    cbn [String.append PyStr.replace_from].
    destruct (PyStr.startswith ".json" (String c (stem ++ ".json"))) eqn:Hst.
    - exfalso.
      assert (PyStr.startswith ".json" (String c stem ++ ".jso") = true) as Ht;
        [|congruence].
      apply (startswith_short _ _ "n").
      + rewrite str_app_assoc. exact Hst.
      + rewrite str_app_length. simpl. lia.
    - f_equal. by apply IH. }
  split; [done|]. rewrite Heq. unfold replace_extension_spec.
  rewrite str_app_length. simpl.
  replace (String.length stem + 5 - 5)%nat with (String.length stem) by lia.
  by rewrite str_take_app.
Qed.

(** * Further properties *)

(** ** What a synchronisation of an archive source touches *)






(** X2: a source without any eligible entry is a no-op.  When the listing
    of a key is empty (unknown key, failed or empty metadata, or no PDF
    among the files) nothing is requested or written, and the counters are
    all zero except for the one failure counted for missing metadata. *)
Theorem X2_ia_sync_without_pdfs_is_noop BASE_DIR net source_key w :
  ia_listing net source_key = [] ->
  download_from_internet_archive BASE_DIR net source_key w
  = (Some (if ia_metadata_missing net source_key then mkStats 0 0 1 else zero_stats), [], w).
Proof.
  intros Hnil%fmap_nil_inv.
  destruct (download_from_internet_archive_cases BASE_DIR net source_key w)
    as [[Hm H]|(Hm & H & _)]; rewrite H, Hm; [|done].
  by rewrite Hnil.
Qed.

Lemma X2_witness :
  download_from_internet_archive demo_base (ok_net "fresh") "phone_book" empty_world
  = (Some (if ia_metadata_missing (ok_net "fresh") "phone_book"
           then mkStats 0 0 1 else zero_stats),
     [], empty_world).
Proof.
  apply (X2_ia_sync_without_pdfs_is_noop demo_base (ok_net "fresh") "phone_book" empty_world).
  vm_compute. reflexivity.
Defined.

(** ** All archive sources *)











Example all_sources_run :
  (download_all_internet_archive demo_base (archive_net (Some 5%Z) "fresh")
     empty_world).1 = Some (mkStats 5 0 0)
  /\ (download_all_internet_archive demo_base unreadable_size_net empty_world).1 = None.
Proof. split; vm_compute; reflexivity. Qed.

(** ** What a folder batch writes *)

Lemma fetch_and_normalize_cases net dest_path f w :
  (fetch_and_normalize net dest_path f w).2 = w
  \/ exists r, http_record net (download_url f) = Some r /\ record_empty r = false
       /\ (fetch_and_normalize net dest_path f w).2
          = write_file dest_path (default "" (normalize r)) w.
Proof.
  unfold fetch_and_normalize. destruct (http_record net (download_url f)) as [r|]; [|by left].
  destruct (record_empty r) eqn:He; [by left|]. right. exists r.
  split_and!; [done|done|]. by destruct (normalize r).
Qed.

Section BatchWrites.
Context (net : network) (dest_dir : string) (files : list file_info) (w0 : world).

Lemma batch_writes_refl : batch_writes net dest_dir files w0 w0.
Proof.
  split; [|by left]. exists []. rewrite app_nil_r. split; [done|].
  by intros e ?%elem_of_nil.
Qed.

Lemma batch_writes_write w f r :
  batch_writes net dest_dir files w0 w -> f ∈ files ->
  http_record net (download_url f) = Some r -> record_empty r = false ->
  batch_writes net dest_dir files w0
    (write_file (dest_path_of dest_dir f) (default "" (normalize r)) w).
Proof.
  intros [(added & Ht & Ha) Hfs] Hin Hr He. split.
  - exists (added ++ [EvWrite (dest_path_of dest_dir f)])%list. simpl.
    rewrite Ht, app_assoc. split; [done|].
    intros e [?| ->%list_elem_of_singleton]%elem_of_app; [by apply Ha|by exists f].
  - intros q. simpl. destruct (decide (dest_path_of dest_dir f = q)) as [<-|Hne].
    + right. exists f, r. by rewrite lookup_insert_eq.
    + rewrite lookup_insert_ne by done. apply Hfs.
Qed.

Lemma batch_writes_step (p : pool) i :
  (forall f, f ∈ p.1.*1 -> f ∈ files) ->
  batch_writes net dest_dir files w0 p.2 ->
  batch_writes net dest_dir files w0 (pool_step net dest_dir p i).2.
Proof.
  intros Hfiles Hb. destruct (p.1 !! i) as [[f t]|] eqn:Hi.
  2:{ by rewrite (pool_step_none _ _ _ _ Hi). }
  rewrite (pool_step_some _ _ _ _ _ _ Hi). simpl.
  assert (f ∈ files) as Hf.
  { apply Hfiles. apply list_elem_of_fmap. exists (f, t). split; [done|].
    by eapply list_elem_of_lookup_2. }
  destruct t as [| |o]; simpl; [by destruct (exists_ _ _)| |done].
  destruct (fetch_and_normalize_cases net (dest_path_of dest_dir f) f p.2)
    as [Heq|(r & Hr & He & Heq)];
    destruct (fetch_and_normalize _ _ _ _) as [o w']; simpl in *; subst w'; [done|].
  by apply batch_writes_write.
Qed.

Lemma batch_writes_run (p : pool) sched :
  (forall f, f ∈ p.1.*1 -> f ∈ files) ->
  batch_writes net dest_dir files w0 p.2 ->
  batch_writes net dest_dir files w0 (foldl (pool_step net dest_dir) p sched).2.
Proof.
  revert p. induction sched as [|i sched IH]; intros p Hfiles Hb; [done|].
  simpl. apply IH.
  - by rewrite pool_step_files.
  - by apply batch_writes_step.
Qed.

End BatchWrites.

Lemma download_github_folder_writes net sched folder dest_dir w :
  batch_writes net dest_dir (folder_files net folder) w
    (download_github_folder net sched folder dest_dir w).2.
Proof.
  unfold download_github_folder, folder_files.
  destruct (http_listing net (github_api_url folder)) as [[|f0 data]|]; simpl;
    try apply batch_writes_refl.
  unfold run_pool. apply batch_writes_run; simpl; [|apply batch_writes_refl].
  intros f. rewrite <- list_fmap_compose. by rewrite list_fmap_id.
Qed.

(** X4: a folder batch whose eligible entries have names that are single
    path components and go to distinct text files writes, whatever the
    interleaving of the workers, only to the text files of its eligible
    entries and requests no file through [download_file]; a path holds
    after the batch what it held before, or, if it was free, the text
    rendered from the record served for the eligible entry that maps to it
    (the empty text when the rendering raised). *)
Theorem X4_folder_batch_writes_only_renderings net sched folder dest_dir w :
  let files := folder_files net folder in
  Forall (fun f => plain_name (name f) = true) files ->
  NoDup (dest_path_of dest_dir <$> files) ->
  let r := download_github_folder net sched folder dest_dir w in
  (exists added,
     trace r.2 = (trace w ++ added)%list
     /\ forall e, e ∈ added -> exists f, f ∈ files /\ e = EvWrite (dest_path_of dest_dir f))
  /\ forall q,
       fs r.2 !! q = fs w !! q
       \/ (fs w !! q = None
           /\ exists f rec, f ∈ files /\ dest_path_of dest_dir f = q
                /\ PyStr.endswith ".json" (name f) = true
                /\ http_record net (download_url f) = Some rec /\ record_empty rec = false
                /\ fs r.2 !! q = Some (default "" (normalize rec))).
Proof.
  intros files _ _ r.
  destruct (download_github_folder_writes net sched folder dest_dir w) as [Htr Hfs].
  split; [done|]. intros q.
  destruct (fs w !! q) as [c|] eqn:Hq.
  - left. rewrite <- Hq.
    by apply (download_github_folder_keeps net dest_dir q w (mk_is_Some _ _ Hq) sched folder).
  - destruct (Hfs q) as [Heq|(f & rec & Hin & Hd & Hr & He & Hc)].
    + left. by rewrite <- Hq.
    + right. split; [done|]. exists f, rec. split_and!; try done.
      unfold folder_files, json_files_of in Hin.
      by apply list_elem_of_filter in Hin as [? _].
Qed.

Lemma X4_witness :
  let files := folder_files demo_net "IMAGES001" in
  let r := download_github_folder demo_net [0; 0]%nat "IMAGES001" "d" empty_world in
  (exists added,
     trace r.2 = (trace empty_world ++ added)%list
     /\ forall e, e ∈ added -> exists f, f ∈ files /\ e = EvWrite (dest_path_of "d" f))
  /\ forall q,
       fs r.2 !! q = fs empty_world !! q
       \/ (fs empty_world !! q = None
           /\ exists f rec, f ∈ files /\ dest_path_of "d" f = q
                /\ PyStr.endswith ".json" (name f) = true
                /\ http_record demo_net (download_url f) = Some rec
                /\ record_empty rec = false
                /\ fs r.2 !! q = Some (default "" (normalize rec))).
Proof.
  apply (X4_folder_batch_writes_only_renderings demo_net [0; 0]%nat "IMAGES001" "d"
           empty_world).
  - vm_compute. repeat constructor.
  - vm_compute. apply NoDup_singleton.
Defined.

(** ** Writes below a directory *)

Lemma startswith_self a b : PyStr.startswith a (a ++ b) = true.
Proof. induction a as [|c a IH]; simpl; [done|]. by rewrite Ascii.eqb_refl. Qed.

Lemma startswith_trans a b p :
  PyStr.startswith (a ++ b) p = true -> PyStr.startswith a p = true.
Proof.
  revert p. induction a as [|c a IH]; intros p; simpl; [done|].
  destruct p as [|c' p]; [done|]. intros [Hc Hp]%andb_true_iff.
  rewrite Hc. simpl. by apply IH.
Qed.

Lemma joinpath_below dir nm : PyStr.startswith (dir ++ "/") (joinpath dir nm) = true.
Proof. unfold joinpath. rewrite <- str_app_assoc. apply startswith_self. Qed.

Lemma below_subdir dir sub p :
  PyStr.startswith (joinpath dir sub ++ "/") p = true ->
  PyStr.startswith (dir ++ "/") p = true.
Proof.
  unfold joinpath. intros H. apply (startswith_trans _ (sub ++ "/")).
  by rewrite !str_app_assoc in H |- *.
Qed.

Lemma writes_below_refl dir w : writes_below dir w w.
Proof.
  split; [|done]. exists []. rewrite app_nil_r. split; [done|]. by intros e ?%elem_of_nil.
Qed.

Lemma writes_below_trans dir w0 w1 w2 :
  writes_below dir w0 w1 -> writes_below dir w1 w2 -> writes_below dir w0 w2.
Proof.
  intros [(a1 & Ht1 & Ha1) Hf1] [(a2 & Ht2 & Ha2) Hf2]. split.
  - exists (a1 ++ a2)%list. rewrite Ht2, Ht1, app_assoc. split; [done|].
    intros e [?|?]%elem_of_app; auto.
  - intros q Hq. rewrite Hf2, Hf1; done.
Qed.



(** ** All folders of the repository *)





(** ** The extraction run *)

Lemma xtotal_xbump o st : xtotal (xbump o st) = S (xtotal st).
Proof. destruct o; unfold xtotal; simpl; lia. Qed.

Lemma extract_loop_conservation BASE_DIR b pdfs stats finds w :
  let r := extract_loop BASE_DIR b pdfs stats finds w in
  length r.1.2 = length pdfs
  /\ r.1.1.1 = foldl (fun st o => xbump o st) stats r.1.2
  /\ xtotal r.1.1.1 = (xtotal stats + length pdfs)%nat.
Proof.
  revert stats finds w. induction pdfs as [|pdf rest IH]; intros stats finds w.
  - simpl. split_and!; [done|done|lia].
  - rewrite extract_loop_unfold. cbv zeta. simpl.
    destruct (IH (xbump (extract_item BASE_DIR b pdf w).1.1 stats)
                 (finds ++ (extract_item BASE_DIR b pdf w).1.2)%list
                 (extract_item BASE_DIR b pdf w).2) as (H1 & H2 & H3).
    split_and!; [by rewrite H1|done|]. rewrite H3, xtotal_xbump. lia.
Qed.

Lemma extract_all_pdfs_stats BASE_DIR b w :
  (extract_all_pdfs BASE_DIR b w).1.1.1
  = (extract_loop BASE_DIR b (pdfs_of BASE_DIR w) (mkXStats 0 0 0) [] w).1.1.1.
Proof.
  unfold extract_all_pdfs.
  destruct (extract_loop _ _ _ _ _ _) as [[[stats finds] os] w1]. by destruct finds.
Qed.

(** X6: an extraction run gives exactly one of its three outcomes to
    every PDF of the walk: the counters are the tally of the outcomes, and
    processed, skipped and failed add up to the number of PDFs found. *)
Theorem X6_extraction_counts_every_pdf BASE_DIR b w :
  let r := extract_all_pdfs BASE_DIR b w in
  length r.1.2 = length (pdfs_of BASE_DIR w)
  /\ r.1.1.1 = xtally r.1.2
  /\ (processed r.1.1.1 + x_skipped r.1.1.1 + x_failed r.1.1.1)%nat
     = length (pdfs_of BASE_DIR w).
Proof.
  intros r. subst r.
  rewrite extract_all_pdfs_stats, extract_all_pdfs_outcomes.
  destruct (extract_loop_conservation BASE_DIR b (pdfs_of BASE_DIR w) (mkXStats 0 0 0) [] w)
    as (H1 & H2 & H3).
  split_and!; [done|done|]. exact H3.
Qed.

(** *** What a run leaves on disk *)

Lemma extract_item_post BASE_DIR b pdf_path w :
  let r := extract_item BASE_DIR b pdf_path w in
  match r.1.1 with
  | ExtractFailed => r.2 = w /\ extract_pdf_text b pdf_path = None
  | AlreadyExtracted => r.2 = w /\ is_Some (fs w !! txt_of BASE_DIR pdf_path)
  | Processed =>
      fs w !! txt_of BASE_DIR pdf_path = None
      /\ exists text m, extract_pdf_text b pdf_path = Some (text, m)
           /\ r.2 = write_file (txt_of BASE_DIR pdf_path)
                      (text_file (basename pdf_path) m text) w
  end.
Proof.
  unfold extract_item, txt_of. cbv zeta.
  destruct (exists_ w _) eqn:He; cbn [fst snd].
  - split; [done|]. by apply exists_is_Some.
  - destruct (extract_pdf_text b pdf_path) as [[text m]|]; cbn [fst snd]; [|done].
    split; [by apply exists_None|]. by exists text, m.
Qed.

Lemma extract_loop_post BASE_DIR b pdfs stats finds w i pdf_path :
  pdfs !! i = Some pdf_path ->
  let r := extract_loop BASE_DIR b pdfs stats finds w in
  match r.1.2 !! i with
  | Some Processed =>
      exists text m, extract_pdf_text b pdf_path = Some (text, m)
        /\ fs r.2 !! txt_of BASE_DIR pdf_path
           = Some (text_file (basename pdf_path) m text)
  | Some AlreadyExtracted => is_Some (fs r.2 !! txt_of BASE_DIR pdf_path)
  | Some ExtractFailed => extract_pdf_text b pdf_path = None
  | None => False
  end.
Proof.
  revert stats finds w i. induction pdfs as [|pdf0 rest IH]; intros stats finds w i Hi.
  - by rewrite lookup_nil in Hi.
  - rewrite extract_loop_unfold. cbv zeta. cbn [fst snd].
    destruct i as [|i]; simpl in Hi.
    + inversion Hi; subst pdf0. simpl.
      pose proof (extract_item_post BASE_DIR b pdf_path w) as Hp. cbv zeta in Hp.
      destruct (extract_item BASE_DIR b pdf_path w) as [[o new] w1]. cbn [fst snd] in *.
      destruct o.
      * destruct Hp as (Hnone & text & m & Hx & Hw). exists text, m. split; [done|].
        assert (is_Some (fs w1 !! txt_of BASE_DIR pdf_path)) as Hs.
        { rewrite Hw. simpl. rewrite lookup_insert_eq. eauto. }
        destruct (extract_loop_keeps BASE_DIR b rest
                    (xbump Processed stats) (finds ++ new)%list w1 _ Hs) as [Hk _].
        rewrite Hk, Hw. simpl. by rewrite lookup_insert_eq.
      * destruct Hp as [Hw Hs]. rewrite <- Hw in Hs.
        destruct (extract_loop_keeps BASE_DIR b rest
                    (xbump AlreadyExtracted stats) (finds ++ new)%list w1 _ Hs) as [Hk _].
        by rewrite Hk.
      * by destruct Hp.
    + simpl. by apply IH.
Qed.

Lemma extract_all_pdfs_world BASE_DIR b w :
  let r := extract_all_pdfs BASE_DIR b w in
  let l := extract_loop BASE_DIR b (pdfs_of BASE_DIR w) (mkXStats 0 0 0) [] w in
  r.2 = l.2 \/ r.2 = write_file (report_path BASE_DIR) (json_dump l.1.1.2) l.2.
Proof.
  unfold extract_all_pdfs.
  destruct (extract_loop _ _ _ _ _ _) as [[[stats finds] os] w1].
  destruct finds; [by left|by right].
Qed.

Lemma txt_of_not_report BASE_DIR pdf_path : txt_of BASE_DIR pdf_path <> report_path BASE_DIR.
Proof. apply txt_path_not_report. Qed.

Lemma extract_all_pdfs_txt BASE_DIR b w pdf_path :
  fs (extract_all_pdfs BASE_DIR b w).2 !! txt_of BASE_DIR pdf_path
  = fs (extract_loop BASE_DIR b (pdfs_of BASE_DIR w) (mkXStats 0 0 0) [] w).2
      !! txt_of BASE_DIR pdf_path.
Proof.
  destruct (extract_all_pdfs_world BASE_DIR b w) as [-> | ->]; [done|].
  simpl. apply lookup_insert_ne. intros H. by apply (txt_of_not_report BASE_DIR pdf_path).
Qed.

(** X7: after an extraction run on a tree where nothing stands in the way
    of the text files, the text file of every PDF the run processed holds
    the header with the name of the PDF, the page counts and the rule,
    followed by the extracted text, and the text file of every PDF the run
    skipped exists; a PDF is counted as failed only when the extraction of
    its text raised, and only such a PDF may be left without a text
    file. *)
Theorem X7_extraction_postcondition BASE_DIR b w i pdf_path :
  walk_clear BASE_DIR w = true ->
  pdfs_of BASE_DIR w !! i = Some pdf_path ->
  let r := extract_all_pdfs BASE_DIR b w in
  match r.1.2 !! i with
  | Some Processed =>
      exists text m, extract_pdf_text b pdf_path = Some (text, m)
        /\ fs r.2 !! txt_of BASE_DIR pdf_path
           = Some ("SOURCE: " ++ basename pdf_path ++ nl
                   ++ "PAGES: " ++ unknown_or (pages m) ++ nl
                   ++ "BLANK PAGES: " ++ unknown_or (blank_pages m) ++ nl
                   ++ rule "=" ++ nl ++ nl ++ text)
  | Some AlreadyExtracted => is_Some (fs r.2 !! txt_of BASE_DIR pdf_path)
  | Some ExtractFailed => extract_pdf_text b pdf_path = None
  | None => False
  end.
Proof.
  intros _ Hi r. subst r. rewrite extract_all_pdfs_outcomes, extract_all_pdfs_txt.
  exact (extract_loop_post BASE_DIR b (pdfs_of BASE_DIR w) (mkXStats 0 0 0) [] w i pdf_path Hi).
Qed.

Lemma X7_witness :
  let r := extract_all_pdfs demo_base scan_backend scan_world in
  match r.1.2 !! 0%nat with
  | Some Processed =>
      exists text m,
        extract_pdf_text scan_backend "/data/documents/internet_archive/src/a.pdf"
        = Some (text, m)
        /\ fs r.2 !! txt_of demo_base "/data/documents/internet_archive/src/a.pdf"
           = Some ("SOURCE: " ++ basename "/data/documents/internet_archive/src/a.pdf" ++ nl
                   ++ "PAGES: " ++ unknown_or (pages m) ++ nl
                   ++ "BLANK PAGES: " ++ unknown_or (blank_pages m) ++ nl
                   ++ rule "=" ++ nl ++ nl ++ text)
  | Some AlreadyExtracted =>
      is_Some (fs r.2 !! txt_of demo_base "/data/documents/internet_archive/src/a.pdf")
  | Some ExtractFailed =>
      extract_pdf_text scan_backend "/data/documents/internet_archive/src/a.pdf" = None
  | None => False
  end.
Proof.
  apply (X7_extraction_postcondition demo_base scan_backend scan_world 0
           "/data/documents/internet_archive/src/a.pdf").
  - vm_compute. reflexivity.
  - vm_compute. reflexivity.
Defined.

(** *** A second extraction run *)

Lemma str_drop_app (a b : string) k :
  PyStr.drop (String.length a + k) (a ++ b) = PyStr.drop k b.
Proof. induction a as [|c a IH]; simpl; [done|exact IH]. Qed.

Lemma str_take_drop (s : string) n : s = PyStr.take n s ++ PyStr.drop n s.
Proof.
  revert n. induction s as [|c s IH]; intros [|n]; simpl; try done.
  by rewrite <- IH.
Qed.

Lemma endswith_split suf p :
  PyStr.endswith suf p = true ->
  p = PyStr.take (String.length p - String.length suf) p ++ suf.
Proof.
  intros H. pose proof (endswith_eq suf p H) as Hd.
  pose proof (str_take_drop p (String.length p - String.length suf)) as Ht.
  by rewrite Hd in Ht.
Qed.

Lemma endswith_app suf a : PyStr.endswith suf (a ++ suf) = true.
Proof.
  unfold PyStr.endswith. rewrite str_app_length. apply andb_true_iff. split.
  - apply Nat.leb_le. lia.
  - replace (String.length a + String.length suf - String.length suf)%nat
      with (String.length a + 0)%nat by lia.
    rewrite str_drop_app. simpl. apply String.eqb_refl.
Qed.

Lemma endswith_two s1 s2 p :
  PyStr.endswith s1 p = true -> PyStr.endswith s2 p = true ->
  (String.length s1 <= String.length s2)%nat ->
  PyStr.endswith s1 s2 = true.
Proof.
  intros H1 H2 Hlen. apply endswith_split in H2.
  set (a := PyStr.take (String.length p - String.length s2) p) in H2.
  rewrite H2 in H1. unfold PyStr.endswith in H1 |- *.
  apply andb_true_iff in H1 as [_ H1]. apply andb_true_iff. split; [by apply Nat.leb_le|].
  rewrite str_app_length in H1.
  replace (String.length a + String.length s2 - String.length s1)%nat
    with (String.length a + (String.length s2 - String.length s1))%nat in H1 by lia.
  by rewrite str_drop_app in H1.
Qed.

Lemma txt_of_ends BASE_DIR pdf_path : PyStr.endswith ".txt" (txt_of BASE_DIR pdf_path) = true.
Proof.
  unfold txt_of, txt_path_of, with_suffix, joinpath.
  rewrite <- !str_app_assoc. apply endswith_app.
Qed.

Lemma report_path_ends BASE_DIR : PyStr.endswith ".json" (report_path BASE_DIR) = true.
Proof.
  unfold report_path, joinpath.
  change "interesting_finds.json" with ("interesting_finds" ++ ".json").
  rewrite <- !str_app_assoc. apply endswith_app.
Qed.

Lemma extract_loop_new_files BASE_DIR b pdfs stats finds w p :
  is_Some (fs (extract_loop BASE_DIR b pdfs stats finds w).2 !! p) ->
  is_Some (fs w !! p) \/ exists pdf_path, p = txt_of BASE_DIR pdf_path.
Proof.
  revert stats finds w. induction pdfs as [|pdf rest IH]; intros stats finds w; [by left|].
  rewrite extract_loop_unfold. cbv zeta. cbn [fst snd]. intros [H|H]%IH; [|by right].
  pose proof (extract_item_post BASE_DIR b pdf w) as Hp. cbv zeta in Hp.
  destruct (extract_item BASE_DIR b pdf w) as [[o new] w1]. cbn [fst snd] in *.
  destruct o.
  - destruct Hp as (_ & text & m & _ & ->). simpl in H.
    destruct (decide (txt_of BASE_DIR pdf = p)) as [<-|Hne]; [right; by exists pdf|].
    rewrite lookup_insert_ne in H by done. by left.
  - destruct Hp as [-> _]. by left.
  - destruct Hp as [-> _]. by left.
Qed.

Lemma extract_all_pdfs_new_files BASE_DIR b w p :
  is_Some (fs (extract_all_pdfs BASE_DIR b w).2 !! p) ->
  is_Some (fs w !! p) \/ p = report_path BASE_DIR \/ exists pdf_path, p = txt_of BASE_DIR pdf_path.
Proof.
  destruct (extract_all_pdfs_world BASE_DIR b w) as [-> | ->].
  - intros [?|?]%extract_loop_new_files; auto.
  - simpl. destruct (decide (report_path BASE_DIR = p)) as [<-|Hne]; [auto|].
    rewrite lookup_insert_ne by done. intros [?|?]%extract_loop_new_files; auto.
Qed.

Lemma extract_all_pdfs_walk BASE_DIR b w p :
  p ∈ pdfs_of BASE_DIR (extract_all_pdfs BASE_DIR b w).2 -> p ∈ pdfs_of BASE_DIR w.
Proof.
  rewrite !pdfs_of_spec. intros (Hs & Hpre & Hext). split_and!; [|done|done].
  destruct (extract_all_pdfs_new_files BASE_DIR b w p Hs) as [?|[->|[pdf ->]]]; [done| |].
  - pose proof (report_path_ends BASE_DIR) as Hr.
    destruct Hext as [H|H]; pose proof (endswith_two _ _ _ H Hr) as Hc;
      simpl in Hc; by specialize (Hc ltac:(lia)).
  - pose proof (txt_of_ends BASE_DIR pdf) as Hr.
    destruct Hext as [H|H]; pose proof (endswith_two _ _ _ H Hr) as Hc;
      simpl in Hc; by specialize (Hc ltac:(lia)).
Qed.

Lemma extract_loop_all_skipped BASE_DIR b pdfs stats finds w :
  (forall pdf_path, pdf_path ∈ pdfs -> is_Some (fs w !! txt_of BASE_DIR pdf_path)) ->
  extract_loop BASE_DIR b pdfs stats finds w
  = (mkXStats (processed stats) (x_skipped stats + length pdfs) (x_failed stats),
     finds, replicate (length pdfs) AlreadyExtracted, w).
Proof.
  revert stats finds. induction pdfs as [|pdf rest IH]; intros stats finds Hall.
  - simpl. rewrite Nat.add_0_r. by destruct stats.
  - rewrite extract_loop_unfold.
    rewrite (extract_item_skips BASE_DIR b pdf w) by (apply Hall; apply list_elem_of_here).
    cbv zeta. cbn [fst snd]. rewrite app_nil_r, IH.
    + simpl. do 3 f_equal. f_equal. lia.
    + intros pdf' ?. apply Hall. by apply list_elem_of_further.
Qed.

Lemma xtally_snoc os o : xtally (os ++ [o]) = xbump o (xtally os).
Proof. unfold xtally. by rewrite foldl_app. Qed.

Lemma xtally_failed_zero os :
  x_failed (xtally os) = 0%nat -> forall o, o ∈ os -> o <> ExtractFailed.
Proof.
  induction os as [|o' os IH] using rev_ind; intros Hz o Ho.
  - by apply elem_of_nil in Ho.
  - rewrite xtally_snoc in Hz. apply elem_of_app in Ho as [Ho|Ho%list_elem_of_singleton].
    + apply IH; [|done]. by destruct o'.
    + subst o'. by destruct o.
Qed.

Lemma extract_all_pdfs_second_run BASE_DIR b b' w :
  let r1 := extract_all_pdfs BASE_DIR b w in
  x_failed r1.1.1.1 = 0%nat ->
  extract_all_pdfs BASE_DIR b' r1.2
  = (mkXStats 0 (length (pdfs_of BASE_DIR r1.2)) 0, [],
     replicate (length (pdfs_of BASE_DIR r1.2)) AlreadyExtracted, r1.2).
Proof.
  intros r1 Hf.
  assert (forall pdf_path, pdf_path ∈ pdfs_of BASE_DIR r1.2 ->
            is_Some (fs r1.2 !! txt_of BASE_DIR pdf_path)) as Hall.
  { intros pdf Hin%extract_all_pdfs_walk. apply list_elem_of_lookup in Hin as [i Hi].
    pose proof (extract_loop_post BASE_DIR b (pdfs_of BASE_DIR w) (mkXStats 0 0 0) [] w
                  i pdf Hi) as Hp. cbv zeta in Hp.
    unfold r1. rewrite extract_all_pdfs_txt.
    unfold r1 in Hf. rewrite extract_all_pdfs_stats in Hf.
    destruct (extract_loop_conservation BASE_DIR b (pdfs_of BASE_DIR w) (mkXStats 0 0 0) [] w)
      as (_ & Hst & _).
    rewrite Hst in Hf.
    destruct ((extract_loop BASE_DIR b (pdfs_of BASE_DIR w) (mkXStats 0 0 0) [] w).1.2 !! i)
      as [o|] eqn:Ho; [|done].
    pose proof (xtally_failed_zero _ Hf o (list_elem_of_lookup_2 _ _ _ Ho)) as Hne.
    destruct o; [|done|done].
    destruct Hp as (text & m & _ & ->). eauto. }
  unfold extract_all_pdfs. rewrite (extract_loop_all_skipped _ _ _ _ _ _ Hall). done.
Qed.

(** X8: an extraction run that counted no failure leaves nothing to do.
    The next run, with whatever extraction capability, finds every PDF
    already extracted: it processes none, fails none, has no finding,
    writes no file and leaves the filesystem and the trace as they
    were. *)
Theorem X8_second_extraction_is_noop BASE_DIR b b' w :
  x_failed (extract_all_pdfs BASE_DIR b w).1.1.1 = 0%nat ->
  let w1 := (extract_all_pdfs BASE_DIR b w).2 in
  extract_all_pdfs BASE_DIR b' w1
  = (mkXStats 0 (length (pdfs_of BASE_DIR w1)) 0, [],
     replicate (length (pdfs_of BASE_DIR w1)) AlreadyExtracted, w1).
Proof. apply extract_all_pdfs_second_run. Qed.

Lemma X8_witness :
  let w1 := (extract_all_pdfs demo_base scan_backend scan_world).2 in
  extract_all_pdfs demo_base demo_backend w1
  = (mkXStats 0 (length (pdfs_of demo_base w1)) 0, [],
     replicate (length (pdfs_of demo_base w1)) AlreadyExtracted, w1).
Proof.
  apply (X8_second_extraction_is_noop demo_base scan_backend demo_backend scan_world).
  vm_compute. reflexivity.
Defined.

(** ** The extraction capability *)

Lemma split_length sep s : length (PyStr.split sep s) = S (count_char sep s).
Proof.
  induction s as [|c s IH]; [done|]. simpl.
  destruct (split_head sep s) as (h & tl & post & Hs & _). rewrite Hs in IH |- *.
  destruct (Ascii.eqb c sep); simpl in *; lia.
Qed.

Lemma count_blank_le pgs : (count_blank pgs <= length pgs)%nat.
Proof. unfold count_blank. apply length_filter. Qed.

(** X9: what [extract_pdf_text] reports.  With the library, the page
    count is the number of pages and a document without pages gives the
    empty text; with the external tool, the page count is the number of
    form feeds of the output plus one, so never zero; in both cases the
    blank pages are at most the pages.  Only the tool path answers without
    counts, and then its text is the error message. *)
Theorem X9_extract_pdf_text_counts b pdf_path text m :
  extract_pdf_text b pdf_path = Some (text, m) ->
  match b with
  | PyMuPDF open_pages =>
      exists pgs, open_pages pdf_path = Some pgs
        /\ pages m = Some (length pgs)
        /\ blank_pages m = Some (count_blank pgs)
        /\ (count_blank pgs <= length pgs)%nat
        /\ (pgs = [] -> text = "")
  | Pdftotext run_tool =>
      (run_tool pdf_path = inl text
       /\ pages m = Some (S (count_char "012" text))
       /\ exists k, blank_pages m = Some k /\ (k <= S (count_char "012" text))%nat)
      \/ (exists e, run_tool pdf_path = inr e /\ text = "Error: " ++ e
            /\ pages m = None /\ blank_pages m = None)
  end.
Proof.
  destruct b as [open_pages|run_tool]; simpl.
  - destruct (open_pages pdf_path) as [pgs|]; [|done]. intros [= <- <-].
    exists pgs. simpl. split_and!; [done..|apply count_blank_le|by intros ->].
  - destruct (run_tool pdf_path) as [out|e]; intros [= <- <-]; simpl.
    + left. rewrite split_length. split_and!; [done..|].
      eexists. split; [done|]. rewrite <- (split_length "012" out). apply count_blank_le.
    + right. by exists e.
Qed.

Lemma X9_witness :
  ((inl phone_and_email_text : string + string) = inl phone_and_email_text
   /\ pages (mkMeta (Some 1%nat) (Some 0%nat)) = Some (S (count_char "012" phone_and_email_text))
   /\ exists k, blank_pages (mkMeta (Some 1%nat) (Some 0%nat)) = Some k
        /\ (k <= S (count_char "012" phone_and_email_text))%nat)
  \/ (exists e, (inl phone_and_email_text : string + string) = inr e
        /\ phone_and_email_text = "Error: " ++ e
        /\ pages (mkMeta (Some 1%nat) (Some 0%nat)) = None
        /\ blank_pages (mkMeta (Some 1%nat) (Some 0%nat)) = None).
Proof.
  apply (X9_extract_pdf_text_counts scan_backend "a.pdf" phone_and_email_text
           (mkMeta (Some 1%nat) (Some 0%nat))).
  vm_compute. reflexivity.
Defined.

Lemma xtally_no_failure os :
  (forall o, o ∈ os -> o <> ExtractFailed) -> x_failed (xtally os) = 0%nat.
Proof.
  induction os as [|o' os IH] using rev_ind; intros H; [done|].
  rewrite xtally_snoc.
  assert (x_failed (xtally os) = 0%nat) as Hz.
  { apply IH. intros o ?. apply H. apply elem_of_app. by left. }
  assert (o' <> ExtractFailed) as Hne.
  { apply H. apply elem_of_app. right. by apply list_elem_of_singleton. }
  by destruct o'.
Qed.

(** X10: with the external tool as the extraction capability, on a tree
    where nothing stands in the way of the text files, no PDF is counted
    as failed.  When the tool cannot be run, the PDF is counted as
    processed and its text file, with unknown page counts, holds the error
    message as its text. *)
Theorem X10_tool_errors_are_processed BASE_DIR run_tool w :
  walk_clear BASE_DIR w = true ->
  let r := extract_all_pdfs BASE_DIR (Pdftotext run_tool) w in
  x_failed r.1.1.1 = 0%nat
  /\ (forall o, o ∈ r.1.2 -> o <> ExtractFailed)
  /\ forall i pdf_path e,
       pdfs_of BASE_DIR w !! i = Some pdf_path ->
       r.1.2 !! i = Some Processed ->
       run_tool pdf_path = inr e ->
       fs r.2 !! txt_of BASE_DIR pdf_path
       = Some ("SOURCE: " ++ basename pdf_path ++ nl ++ "PAGES: unknown" ++ nl
               ++ "BLANK PAGES: unknown" ++ nl ++ rule "=" ++ nl ++ nl ++ "Error: " ++ e).
Proof.
  intros _ r.
  assert (forall o, o ∈ r.1.2 -> o <> ExtractFailed) as Hno.
  { intros o [i Hi]%list_elem_of_lookup ->. subst r.
    rewrite extract_all_pdfs_outcomes in Hi.
    destruct (lookup_lt_is_Some_2 (pdfs_of BASE_DIR w) i) as [pdf Hp].
    { destruct (extract_loop_conservation BASE_DIR (Pdftotext run_tool) (pdfs_of BASE_DIR w)
                  (mkXStats 0 0 0) [] w) as (Hlen & _). rewrite <- Hlen.
      by eapply lookup_lt_Some. }
    pose proof (extract_loop_post BASE_DIR (Pdftotext run_tool) (pdfs_of BASE_DIR w)
                  (mkXStats 0 0 0) [] w i pdf Hp) as Hpost.
    cbv zeta in Hpost. rewrite Hi in Hpost. simpl in Hpost.
    by destruct (run_tool pdf). }
  split_and!; [|done|].
  - subst r. rewrite extract_all_pdfs_stats.
    destruct (extract_loop_conservation BASE_DIR (Pdftotext run_tool) (pdfs_of BASE_DIR w)
                (mkXStats 0 0 0) [] w) as (_ & Hst & _).
    rewrite Hst. apply xtally_no_failure. by rewrite <- extract_all_pdfs_outcomes.
  - intros i pdf e Hp Ho He. subst r.
    rewrite extract_all_pdfs_outcomes in Ho. rewrite extract_all_pdfs_txt.
    pose proof (extract_loop_post BASE_DIR (Pdftotext run_tool) (pdfs_of BASE_DIR w)
                  (mkXStats 0 0 0) [] w i pdf Hp) as Hpost.
    cbv zeta in Hpost. rewrite Ho in Hpost. destruct Hpost as (text & m & Hx & ->).
    simpl in Hx. rewrite He in Hx. by inversion Hx.
Qed.

Lemma X10_witness :
  let run_tool := fun _ : string => (inr "pdftotext not found" : string + string) in
  let r := extract_all_pdfs demo_base (Pdftotext run_tool) scan_world in
  x_failed r.1.1.1 = 0%nat
  /\ (forall o, o ∈ r.1.2 -> o <> ExtractFailed)
  /\ forall i pdf_path e,
       pdfs_of demo_base scan_world !! i = Some pdf_path ->
       r.1.2 !! i = Some Processed ->
       run_tool pdf_path = inr e ->
       fs r.2 !! txt_of demo_base pdf_path
       = Some ("SOURCE: " ++ basename pdf_path ++ nl ++ "PAGES: unknown" ++ nl
               ++ "BLANK PAGES: unknown" ++ nl ++ rule "=" ++ nl ++ nl ++ "Error: " ++ e).
Proof.
  apply (X10_tool_errors_are_processed demo_base
           (fun _ : string => (inr "pdftotext not found" : string + string)) scan_world).
  vm_compute. reflexivity.
Defined.

(** ** The findings of a run *)





(** ** The findings report *)

Lemma extract_item_keeps_report BASE_DIR b pdf_path w :
  keeps (report_path BASE_DIR) w (extract_item BASE_DIR b pdf_path w).2.
Proof.
  pose proof (extract_item_post BASE_DIR b pdf_path w) as Hp. cbv zeta in Hp.
  destruct (extract_item BASE_DIR b pdf_path w) as [[o new] w1]. cbn [fst snd] in *.
  destruct o.
  - destruct Hp as (_ & text & m & _ & ->). apply keeps_write. apply txt_of_not_report.
  - destruct Hp as [-> _]. apply keeps_refl.
  - destruct Hp as [-> _]. apply keeps_refl.
Qed.

Lemma extract_loop_keeps_report BASE_DIR b pdfs stats finds w :
  keeps (report_path BASE_DIR) w (extract_loop BASE_DIR b pdfs stats finds w).2.
Proof.
  revert stats finds w. induction pdfs as [|pdf rest IH]; intros stats finds w.
  - apply keeps_refl.
  - rewrite extract_loop_unfold. cbv zeta. cbn [fst snd].
    eapply keeps_trans; [apply extract_item_keeps_report|apply IH].
Qed.

(** X12: the findings report is written at the end of a run, and only
    then, when the run has findings: it is then the dump of exactly the
    findings of this run.  A run without findings never opens the report,
    so a report left by an earlier run stays as it is. *)
Theorem X12_report_written_only_with_findings BASE_DIR b w :
  let r := extract_all_pdfs BASE_DIR b w in
  match r.1.1.2 with
  | [] => keeps (report_path BASE_DIR) w r.2
  | finds =>
      fs r.2 !! report_path BASE_DIR = Some (json_dump finds)
      /\ exists before,
           trace r.2 = (before ++ [EvWrite (report_path BASE_DIR)])%list
           /\ EvWrite (report_path BASE_DIR) ∉ drop (length (trace w)) before
  end.
Proof.
  intros r. subst r. unfold extract_all_pdfs.
  pose proof (extract_loop_keeps_report BASE_DIR b (pdfs_of BASE_DIR w) (mkXStats 0 0 0) [] w)
    as Hk.
  destruct (extract_loop _ _ _ _ _ _) as [[[stats finds] os] w1]. cbn [fst snd] in *.
  destruct finds as [|f finds]; cbn [fst snd]; [done|].
  split; [simpl; by rewrite lookup_insert_eq|].
  exists (trace w1). split; [done|].
  destruct Hk as [_ (added & -> & Hn)]. by rewrite drop_app_length.
Qed.

(** ** What the search reports *)

Lemma search_file_Some BASE_DIR term txt_file raw entry :
  search_file BASE_DIR term txt_file raw = Some entry ->
  PyStr.contains (PyStr.lower term) (PyStr.lower (read_text raw)) = true
  /\ entry = (relative_to BASE_DIR txt_file, firstn 5 (line_matches term (read_text raw))).
Proof.
  unfold search_file. cbv zeta.
  destruct (PyStr.contains _ _); [|done]. by intros [= <-].
Qed.

Lemma search_all_inv BASE_DIR term w entry :
  entry ∈ search_all BASE_DIR term w ->
  exists search_dir txt_file raw,
    search_dir ∈ search_dirs BASE_DIR /\ txt_file ∈ rglob w search_dir ".txt"
    /\ fs w !! txt_file = Some raw
    /\ search_file BASE_DIR term txt_file raw = Some entry.
Proof.
  unfold search_all. intros Hentry. apply list_elem_of_In, in_flat_map in Hentry.
  destruct Hentry as (d & Hd & Hin).
  apply list_elem_of_In, list_elem_of_omap in Hin as (txt_file & Hf & Hs).
  destruct (fs w !! txt_file) as [raw|] eqn:Hraw; [|done]. simpl in Hs.
  exists d, txt_file, raw. split_and!; [by apply list_elem_of_In|done..].
Qed.

Lemma rglob_spec w dir ext p :
  p ∈ rglob w dir ext
  <-> is_Some (fs w !! p) /\ PyStr.startswith (dir ++ "/") p = true
      /\ PyStr.endswith ext p = true.
Proof.
  unfold rglob. rewrite list_elem_of_filter, andb_true_iff.
  assert (p ∈ (map_to_list (fs w)).*1 <-> is_Some (fs w !! p)) as ->.
  { rewrite list_elem_of_fmap. split.
    - intros [[k v] [-> Hin%elem_of_map_to_list]]. eauto.
    - intros [v Hv]. exists (p, v). split; [done|]. by apply elem_of_map_to_list. }
  tauto.
Qed.

Lemma search_dirs_disjoint BASE_DIR p :
  PyStr.startswith (github_dest_dir BASE_DIR ++ "/") p = true ->
  PyStr.startswith (EXTRACTED_DIR BASE_DIR ++ "/") p = true -> False.
Proof.
  intros H1%startswith_split H2%startswith_split. rewrite H1 in H2 at 1.
  unfold github_dest_dir, DOCS_DIR, EXTRACTED_DIR, joinpath in H2.
  rewrite !str_app_assoc in H2. apply (inj (String.app _)) in H2. discriminate H2.
Qed.

Lemma search_dir_below_base BASE_DIR search_dir p :
  search_dir ∈ search_dirs BASE_DIR ->
  PyStr.startswith (search_dir ++ "/") p = true ->
  PyStr.startswith (BASE_DIR ++ "/") p = true.
Proof.
  unfold search_dirs. intros Hd Hp.
  apply elem_of_cons in Hd as [->|Hd]; [|apply elem_of_cons in Hd as [->|Hd]].
  - unfold github_dest_dir in Hp. apply below_subdir in Hp.
    unfold DOCS_DIR in Hp. by apply below_subdir in Hp.
  - unfold EXTRACTED_DIR in Hp. by apply below_subdir in Hp.
  - by apply elem_of_nil in Hd.
Qed.

Lemma omap_fst_sublist {A B C} (g : A -> option (B * C)) (h : A -> B) l :
  (forall x e, g x = Some e -> e.1 = h x) ->
  (omap g l).*1 `sublist_of` (h <$> l).
Proof.
  intros Hg. induction l as [|x l IH]; simpl; [constructor|].
  change (list_omap A (B * C)%type g l) with (omap g l).
  destruct (g x) as [e|] eqn:He; simpl.
  - rewrite (Hg x e He). by apply sublist_skip.
  - by apply sublist_cons.
Qed.

Lemma corpus_files_NoDup BASE_DIR w :
  NoDup (relative_to BASE_DIR <$>
           (rglob w (github_dest_dir BASE_DIR) ".txt"
            ++ rglob w (EXTRACTED_DIR BASE_DIR) ".txt")%list).
Proof.
  apply NoDup_fmap_2_strong.
  - intros p1 p2 H1 H2. apply relative_to_inj.
    + apply elem_of_app in H1 as [H1|H1]; apply rglob_spec in H1 as (_ & H1 & _).
      * eapply search_dir_below_base; [|done]. apply list_elem_of_here.
      * eapply search_dir_below_base; [|done]. apply list_elem_of_further, list_elem_of_here.
    + apply elem_of_app in H2 as [H2|H2]; apply rglob_spec in H2 as (_ & H2 & _).
      * eapply search_dir_below_base; [|done]. apply list_elem_of_here.
      * eapply search_dir_below_base; [|done]. apply list_elem_of_further, list_elem_of_here.
  - apply NoDup_app. split_and!; [apply rglob_NoDup| |apply rglob_NoDup].
    intros p (_ & H1 & _)%rglob_spec (_ & H2 & _)%rglob_spec.
    by eapply search_dirs_disjoint.
Qed.

Lemma search_all_files_sublist BASE_DIR term w :
  (search_all BASE_DIR term w).*1
  `sublist_of` (relative_to BASE_DIR <$>
                  (rglob w (github_dest_dir BASE_DIR) ".txt"
                   ++ rglob w (EXTRACTED_DIR BASE_DIR) ".txt")%list).
Proof.
  unfold search_all, search_dirs. simpl. rewrite app_nil_r, !fmap_app.
  apply sublist_app; apply omap_fst_sublist; intros txt_file e;
    (destruct (fs w !! txt_file) as [raw|]; [|done]); simpl;
    intros [_ ->]%search_file_Some; done.
Qed.

(** X13: the search for an ASCII term in a corpus of ASCII text files
    reports nothing but matches.  Every entry of the result is a text file
    below one of the two corpus roots whose content contains the term in
    some letter case, named relative to the base directory, with at most
    five lines, each a numbered line of the file that contains the term;
    and no file is reported twice. *)
Theorem X13_search_is_sound BASE_DIR term w :
  is_ascii term = true ->
  text_files_ascii w = true ->
  let res := search_all BASE_DIR term w in
  NoDup res.*1
  /\ forall rel ms, (rel, ms) ∈ res ->
       exists txt_file raw,
         fs w !! txt_file = Some raw
         /\ rel = relative_to BASE_DIR txt_file
         /\ PyStr.endswith ".txt" txt_file = true
         /\ (PyStr.startswith (github_dest_dir BASE_DIR ++ "/") txt_file = true
             \/ PyStr.startswith (EXTRACTED_DIR BASE_DIR ++ "/") txt_file = true)
         /\ PyStr.contains (PyStr.lower term) (PyStr.lower (read_text raw)) = true
         /\ (length ms <= 5)%nat
         /\ forall n t, (n, t) ∈ ms ->
              exists j l, PyStr.split "010" (read_text raw) !! j = Some l
                /\ PyStr.contains (PyStr.lower term) (PyStr.lower l) = true
                /\ n = (j + 1)%nat /\ t = PyStr.take 100 (PyStr.strip l).
Proof.
  intros _ _ res. split.
  - eapply sublist_NoDup; [apply corpus_files_NoDup|apply search_all_files_sublist].
  - intros rel ms (d & txt_file & raw & Hd & Hin & Hraw & Hs)%search_all_inv.
    apply search_file_Some in Hs as [Hc [= -> ->]].
    apply rglob_spec in Hin as (_ & Hpre & Hext).
    exists txt_file, raw. split_and!; [done..| |done| |].
    + unfold search_dirs in Hd.
      apply elem_of_cons in Hd as [->|[->|?%elem_of_nil]%elem_of_cons]; [by left|by right|done].
    + rewrite length_take. lia.
    + intros n t (k & Hk & _)%elem_of_take. apply line_matches_elem.
      by eapply list_elem_of_lookup_2.
Qed.

Lemma X13_witness :
  let res := search_all demo_base "TRUMP" corpus_world in
  NoDup res.*1
  /\ forall rel ms, (rel, ms) ∈ res ->
       exists txt_file raw,
         fs corpus_world !! txt_file = Some raw
         /\ rel = relative_to demo_base txt_file
         /\ PyStr.endswith ".txt" txt_file = true
         /\ (PyStr.startswith (github_dest_dir demo_base ++ "/") txt_file = true
             \/ PyStr.startswith (EXTRACTED_DIR demo_base ++ "/") txt_file = true)
         /\ PyStr.contains (PyStr.lower "TRUMP") (PyStr.lower (read_text raw)) = true
         /\ (length ms <= 5)%nat
         /\ forall n t, (n, t) ∈ ms ->
              exists j l, PyStr.split "010" (read_text raw) !! j = Some l
                /\ PyStr.contains (PyStr.lower "TRUMP") (PyStr.lower l) = true
                /\ n = (j + 1)%nat /\ t = PyStr.take 100 (PyStr.strip l).
Proof.
  apply (X13_search_is_sound demo_base "TRUMP" corpus_world).
  - vm_compute. reflexivity.
  - vm_compute. reflexivity.
Defined.

(** *** A term with a line break *)

Lemma count_char_app c a b :
  count_char c (a ++ b) = (count_char c a + count_char c b)%nat.
Proof. induction a as [|x a IH]; simpl; [done|]. rewrite IH. lia. Qed.

Lemma contains_split t l :
  PyStr.contains t l = true -> exists pre post, l = pre ++ t ++ post.
Proof.
  induction l as [|c l IH]; rewrite contains_unfold.
  - rewrite orb_false_r. intros H%startswith_split. by exists "", (PyStr.drop (String.length t) "").
  - intros [H%startswith_split|H]%orb_true_iff.
    + by exists "", (PyStr.drop (String.length t) (String c l)).
    + destruct (IH H) as (pre & post & ->). by exists (String c pre), post.
Qed.

Lemma contains_count c t l :
  PyStr.contains t l = true -> (count_char c t <= count_char c l)%nat.
Proof.
  intros (pre & post & ->)%contains_split. rewrite !count_char_app. lia.
Qed.

Lemma lower_char_nl c : Ascii.eqb (PyStr.lower_char c) "010" = Ascii.eqb c "010".
Proof. destruct c as [[] [] [] [] [] [] [] []]; reflexivity. Qed.

Lemma count_char_lower_nl s : count_char "010" (PyStr.lower s) = count_char "010" s.
Proof. induction s as [|c s IH]; simpl; [done|]. by rewrite lower_char_nl, IH. Qed.

Lemma split_no_sep sep s line :
  line ∈ PyStr.split sep s -> count_char sep line = 0%nat.
Proof.
  revert line. induction s as [|c s IH]; intros line; simpl.
  - by intros ->%list_elem_of_singleton.
  - destruct (split_head sep s) as (h & tl & post & Hs & _). rewrite Hs in IH |- *.
    destruct (Ascii.eqb c sep) eqn:Hc.
    + intros [->|Hin]%elem_of_cons; [done|by apply IH].
    + intros [->|Hin]%elem_of_cons.
      * simpl. rewrite Hc. simpl. apply IH. apply list_elem_of_here.
      * apply IH. by apply list_elem_of_further.
Qed.

Lemma line_matches_multiline term content :
  (1 <= count_char "010" term)%nat -> line_matches term content = [].
Proof.
  intros Hnl. destruct (line_matches term content) as [|[n t] ms] eqn:Hm; [done|].
  assert ((n, t) ∈ line_matches term content) as Hin by (rewrite Hm; apply list_elem_of_here).
  apply line_matches_elem in Hin as (j & l & Hl & Hc & _).
  apply (contains_count "010") in Hc. rewrite !count_char_lower_nl in Hc.
  rewrite (split_no_sep "010" content l) in Hc by by eapply list_elem_of_lookup_2.
  lia.
Qed.

(** X14: a term that contains a line break is compared with the whole
    content of a file but then with single lines: every file the search
    reports for such a term comes without any matching line. *)
Theorem X14_multiline_term_has_no_lines BASE_DIR term w rel ms :
  (1 <= count_char "010" term)%nat ->
  (rel, ms) ∈ search_all BASE_DIR term w ->
  ms = [].
Proof.
  intros Hnl (d & txt_file & raw & _ & _ & _ & Hs)%search_all_inv.
  apply search_file_Some in Hs as [_ [= _ ->]].
  by rewrite line_matches_multiline.
Qed.

Lemma X14_witness :
  search_all demo_base two_line_term corpus_world
  = [("extracted_text/pdf_text/src/a.txt", [])]
  /\ [] = ([] : list (nat * string)).
Proof.
  split; [vm_compute; reflexivity|].
  symmetry.
  apply (X14_multiline_term_has_no_lines demo_base two_line_term corpus_world
           "extracted_text/pdf_text/src/a.txt" []).
  - vm_compute. lia.
  - vm_compute. apply list_elem_of_here.
Defined.

(** ** What the patterns match *)

Lemma str_drop_drop (s : string) a b : PyStr.drop a (PyStr.drop b s) = PyStr.drop (b + a) s.
Proof.
  revert s. induction b as [|b IH]; intros s; [done|].
  destruct s as [|c s]; simpl; [by destruct a|apply IH].
Qed.

Lemma str_drop_length (s : string) n :
  String.length (PyStr.drop n s) = (String.length s - n)%nat.
Proof. revert n. induction s as [|c s IH]; intros [|n]; simpl; try done. Qed.

Lemma str_take_length (s : string) n :
  (n <= String.length s)%nat -> String.length (PyStr.take n s) = n.
Proof.
  revert n. induction s as [|c s IH]; intros [|n]; simpl; try done; [lia|].
  intros H. rewrite IH; [done|lia].
Qed.

Lemma str_take_add (s : string) a b :
  PyStr.take (a + b) s = PyStr.take a s ++ PyStr.take b (PyStr.drop a s).
Proof.
  revert s. induction a as [|a IH]; intros s; [done|].
  destruct s as [|c s]; simpl; [by destruct b|]. by rewrite IH.
Qed.

Lemma str_all_app P a b : str_all P (a ++ b) = str_all P a && str_all P b.
Proof. induction a as [|c a IH]; simpl; [done|]. by rewrite IH, andb_assoc. Qed.

Lemma str_all_impl (P Q : ascii -> bool) s :
  (forall c, P c = true -> Q c = true) -> str_all P s = true -> str_all Q s = true.
Proof.
  intros H. induction s as [|c s IH]; simpl; [done|].
  intros [Hc Hs]%andb_true_iff. by rewrite (H c Hc), IH.
Qed.

Lemma run_spec cls hi s :
  (Re.run cls hi s <= String.length s)%nat
  /\ (forall h, hi = Some h -> Re.run cls hi s <= h)%nat
  /\ forall j, (j <= Re.run cls hi s)%nat -> str_all cls (PyStr.take j s) = true.
Proof.
  revert hi. induction s as [|c s IH]; intros hi; simpl.
  - split_and!; [done|lia|]. intros j ?. by replace j with 0%nat by lia.
  - destruct hi as [[|h]|]; simpl.
    + split_and!; [lia|lia|]. intros j ?. by replace j with 0%nat by lia.
    + destruct (cls c) eqn:Hc.
      * destruct (IH (Some h)) as (H1 & H2 & H3). simpl in *.
        split_and!; [lia| |].
        -- intros h' [= <-]. specialize (H2 h eq_refl). lia.
        -- intros [|j] Hj; simpl; [done|]. rewrite Hc. simpl. apply H3. lia.
      * split_and!; [lia|lia|]. intros j ?. by replace j with 0%nat by lia.
    + destruct (cls c) eqn:Hc.
      * destruct (IH None) as (H1 & _ & H3). simpl in *.
        split_and!; [lia|done|].
        intros [|j] Hj; simpl; [done|]. rewrite Hc. simpl. apply H3. lia.
      * split_and!; [lia|done|]. intros j ?. by replace j with 0%nat by lia.
Qed.

Lemma backtrack_unfold k lo j prev s :
  Re.backtrack k lo j prev s
  = if (j <? lo)%nat then None
    else match k (Re.prev_at prev j s) (PyStr.drop j s) with
         | Some r => Some r
         | None => match j with
                   | O => None
                   | S j' => Re.backtrack k lo j' prev s
                   end
         end.
Proof. by destruct j. Qed.

Lemma backtrack_spec k lo j prev s r :
  Re.backtrack k lo j prev s = Some r ->
  exists j', (lo <= j' <= j)%nat /\ k (Re.prev_at prev j' s) (PyStr.drop j' s) = Some r.
Proof.
  induction j as [|j IH]; rewrite backtrack_unfold.
  - destruct (0 <? lo)%nat eqn:Hlt; [done|]. apply Nat.ltb_ge in Hlt.
    destruct (k _ _) as [r'|] eqn:Hk; [|done]. intros [= <-]. exists 0%nat. split; [lia|done].
  - destruct (S j <? lo)%nat eqn:Hlt; [done|]. apply Nat.ltb_ge in Hlt.
    destruct (k (Re.prev_at prev (S j) s) (PyStr.drop (S j) s)) as [r'|] eqn:Hk.
    + intros [= <-]. exists (S j). split; [lia|done].
    + intros (j' & Hj' & Hr)%IH. exists j'. split; [lia|done].
Qed.

Lemma match_here_spec pat prev s r :
  Re.match_here pat prev s = Some r ->
  exists n, r = PyStr.drop n s /\ (n <= String.length s)%nat
    /\ (min_len pat <= n)%nat
    /\ (forall M, max_len pat = Some M -> n <= M)%nat
    /\ str_all (pat_class pat) (PyStr.take n s) = true.
Proof.
  revert prev s. induction pat as [|a rest IH]; intros prev s; simpl.
  - intros [= <-]. exists 0%nat. split_and!; [done|lia|lia| |done].
    intros M [= <-]. lia.
  - destruct a as [cls lo hi|].
    + intros (j & Hj & Hr)%backtrack_spec.
      destruct (IH _ _ Hr) as (n & -> & Hn & Hmin & Hmax & Hall).
      destruct (run_spec cls hi s) as (R1 & R2 & R3).
      rewrite str_drop_length in Hn. rewrite str_drop_drop.
      exists (j + n)%nat. split_and!; [done|lia|lia| |].
      * intros M HM. destruct hi as [h|]; [|done]. simpl in HM.
        destruct (max_len rest) as [m|]; [|done]. simpl in HM. inversion HM.
        specialize (R2 h eq_refl). specialize (Hmax m eq_refl). lia.
      * rewrite str_take_add, str_all_app. apply andb_true_iff. split.
        -- apply (str_all_impl cls); [by intros c ->|]. apply R3. lia.
        -- apply (str_all_impl (pat_class rest)); [|done].
           intros c ->. apply orb_true_r.
    + destruct (Re.at_boundary prev s); [|done]. apply IH.
Qed.

Lemma substring_of_cons c x s : substring_of x s -> substring_of x (String c s).
Proof. intros (pre & post & ->). by exists (String c pre), post. Qed.

Lemma findall_from_spec pat prev skip s x :
  x ∈ Re.findall_from pat prev skip s ->
  substring_of x s
  /\ (min_len pat <= String.length x)%nat
  /\ (forall M, max_len pat = Some M -> String.length x <= M)%nat
  /\ str_all (pat_class pat) x = true.
Proof.
  revert prev skip. induction s as [|c s IH]; intros prev skip.
  - simpl. destruct skip as [|k]; [|by intros ?%elem_of_nil].
    destruct (Re.match_here pat prev "") as [r|] eqn:Hm; [|by intros ?%elem_of_nil].
    intros ->%list_elem_of_singleton.
    destruct (match_here_spec _ _ _ _ Hm) as (n & -> & Hn & Hmin & Hmax & Hall).
    simpl in Hn. replace n with 0%nat in * by lia. simpl.
    split_and!; [by exists "", ""|lia|intros M HM; specialize (Hmax M HM); lia|done].
  - cbn [Re.findall_from].
    destruct skip as [|k].
    + destruct (Re.match_here pat prev (String c s)) as [r|] eqn:Hm.
      * destruct (match_here_spec _ _ _ _ Hm) as (n & -> & Hn & Hmin & Hmax & Hall).
        rewrite str_drop_length.
        replace (String.length (String c s) - (String.length (String c s) - n))%nat
          with n by lia.
        intros [->|Hin]%elem_of_cons.
        -- rewrite str_take_length by done. split_and!; [|done..].
           exists "", (PyStr.drop n (String c s)). simpl. apply (str_take_drop (String c s) n).
        -- destruct (IH _ _ Hin) as (Hsub & ?). split; [by apply substring_of_cons|done].
      * intros Hin. destruct (IH _ _ Hin) as (Hsub & ?).
        split; [by apply substring_of_cons|done].
    + intros Hin. destruct (IH _ _ Hin) as (Hsub & ?).
      split; [by apply substring_of_cons|done].
Qed.

(** X15: what the scan can record in an ASCII text.  Every phone match
    is a piece of the scanned text of 10 to 12 characters, all digits,
    hyphens or dots, and every email match is a piece of the text of at
    least 6 characters drawn from letters, digits and [._%+-@|]. *)
Theorem X15_matches_are_pieces_of_the_text text :
  is_ascii text = true ->
  Forall (fun x => substring_of x text
                   /\ (10 <= String.length x <= 12)%nat
                   /\ str_all (fun c => PyStr.is_digit c || Re.any_of "-." c) x = true)
         (Re.findall Re.phone text)
  /\ Forall (fun x => substring_of x text
                      /\ (6 <= String.length x)%nat
                      /\ str_all (fun c => Re.alnum c || Re.any_of "._%+-@|" c) x = true)
            (Re.findall Re.email text).
Proof.
  intros _.
  split; apply Forall_forall; intros x Hx; unfold Re.findall in Hx;
    apply findall_from_spec in Hx as (Hsub & Hmin & Hmax & Hall).
  - split_and!; [done|exact Hmin|exact (Hmax 12%nat eq_refl)|].
    revert Hall. apply str_all_impl. intros c. simpl. unfold Re.any_of.
    destruct c as [[] [] [] [] [] [] [] []]; vm_compute; done.
  - split_and!; [done|exact Hmin|].
    revert Hall. apply str_all_impl. intros c.
    destruct c as [[] [] [] [] [] [] [] []]; vm_compute; done.
Qed.

Lemma X15_witness :
  Forall (fun x => substring_of x phone_and_email_text
                   /\ (10 <= String.length x <= 12)%nat
                   /\ str_all (fun c => PyStr.is_digit c || Re.any_of "-." c) x = true)
         (Re.findall Re.phone phone_and_email_text)
  /\ Forall (fun x => substring_of x phone_and_email_text
                      /\ (6 <= String.length x)%nat
                      /\ str_all (fun c => Re.alnum c || Re.any_of "._%+-@|" c) x = true)
            (Re.findall Re.email phone_and_email_text).
Proof.
  apply (X15_matches_are_pieces_of_the_text phone_and_email_text).
  vm_compute. reflexivity.
Defined.

(** ** Where the extraction writes *)

Lemma writes_below_write dir p content w :
  PyStr.startswith (dir ++ "/") p = true -> writes_below dir w (write_file p content w).
Proof.
  intros Hp. split.
  - exists [EvWrite p]. split; [done|]. intros e ->%list_elem_of_singleton. by exists p.
  - intros q Hq. simpl. apply lookup_insert_ne. intros ->. congruence.
Qed.

Lemma txt_of_below BASE_DIR pdf_path :
  PyStr.startswith (EXTRACTED_DIR BASE_DIR ++ "/") (txt_of BASE_DIR pdf_path) = true.
Proof.
  unfold txt_of, txt_path_of. eapply below_subdir. apply joinpath_below.
Qed.

Lemma extract_loop_writes_below BASE_DIR b pdfs stats finds w :
  writes_below (EXTRACTED_DIR BASE_DIR) w (extract_loop BASE_DIR b pdfs stats finds w).2.
Proof.
  revert stats finds w. induction pdfs as [|pdf rest IH]; intros stats finds w.
  - apply writes_below_refl.
  - rewrite extract_loop_unfold. cbv zeta. cbn [fst snd].
    eapply writes_below_trans; [|apply IH].
    pose proof (extract_item_post BASE_DIR b pdf w) as Hp. cbv zeta in Hp.
    destruct (extract_item BASE_DIR b pdf w) as [[o new] w1]. cbn [fst snd] in *.
    destruct o.
    + destruct Hp as (_ & text & m & _ & ->). apply writes_below_write, txt_of_below.
    + destruct Hp as [-> _]. apply writes_below_refl.
    + destruct Hp as [-> _]. apply writes_below_refl.
Qed.

Lemma extract_all_pdfs_writes_below BASE_DIR b w :
  writes_below (EXTRACTED_DIR BASE_DIR) w (extract_all_pdfs BASE_DIR b w).2.
Proof.
  destruct (extract_all_pdfs_world BASE_DIR b w) as [-> | ->].
  - apply extract_loop_writes_below.
  - eapply writes_below_trans; [apply extract_loop_writes_below|].
    apply writes_below_write. apply joinpath_below.
Qed.

(** X16: an extraction run requests nothing through [download_file] and
    writes only below [extracted_text]: every event it adds to the trace
    is a write to a path below that directory, and every file elsewhere,
    the documents among them, is as it was. *)
Theorem X16_extraction_writes_below_extracted_text BASE_DIR b w :
  let r := extract_all_pdfs BASE_DIR b w in
  (exists added,
     trace r.2 = (trace w ++ added)%list
     /\ forall e, e ∈ added ->
          exists p, e = EvWrite p
            /\ PyStr.startswith (EXTRACTED_DIR BASE_DIR ++ "/") p = true)
  /\ forall q, PyStr.startswith (EXTRACTED_DIR BASE_DIR ++ "/") q = false ->
       fs r.2 !! q = fs w !! q.
Proof. apply extract_all_pdfs_writes_below. Qed.

(** ** The status report *)

Lemma docs_not_extracted BASE_DIR p :
  PyStr.startswith (DOCS_DIR BASE_DIR ++ "/") p = true ->
  PyStr.startswith (EXTRACTED_DIR BASE_DIR ++ "/") p = false.
Proof.
  intros H1%startswith_split.
  destruct (PyStr.startswith (EXTRACTED_DIR BASE_DIR ++ "/") p) eqn:H2; [|done].
  apply startswith_split in H2. rewrite H1 in H2 at 1.
  unfold DOCS_DIR, EXTRACTED_DIR, joinpath in H2.
  rewrite !str_app_assoc in H2. apply (inj (String.app _)) in H2. discriminate H2.
Qed.

Lemma keys_elem (w : world) p : p ∈ (map_to_list (fs w)).*1 <-> is_Some (fs w !! p).
Proof.
  rewrite list_elem_of_fmap. split.
  - intros [[k v] [-> Hin%elem_of_map_to_list]]. eauto.
  - intros [v Hv]. exists (p, v). split; [done|]. by apply elem_of_map_to_list.
Qed.

Lemma filter_keys_perm (P : string -> bool) (w w' : world) :
  (forall p, P p = true -> fs w' !! p = fs w !! p) ->
  filter (fun p => P p = true) (map_to_list (fs w')).*1
  ≡ₚ filter (fun p => P p = true) (map_to_list (fs w)).*1.
Proof.
  intros H. apply NoDup_Permutation.
  - apply NoDup_filter, NoDup_fst_map_to_list.
  - apply NoDup_filter, NoDup_fst_map_to_list.
  - intros p. rewrite !list_elem_of_filter, !keys_elem.
    split; intros [HP Hs]; (split; [done|]); [by rewrite <- (H p HP)|by rewrite (H p HP)].
Qed.

Lemma sum_sizes_perm w l k : l ≡ₚ k -> sum_sizes w l = sum_sizes w k.
Proof. unfold sum_sizes. induction 1; simpl; lia. Qed.

Lemma sum_sizes_ext w w' l :
  (forall p, p ∈ l -> fs w' !! p = fs w !! p) -> sum_sizes w' l = sum_sizes w l.
Proof.
  unfold sum_sizes, size_at. induction l as [|p l IH]; intros H; simpl; [done|].
  rewrite (H p) by apply list_elem_of_here. rewrite IH; [done|].
  intros q ?. apply H. by apply list_elem_of_further.
Qed.

Lemma glob_below w dir ext p : p ∈ glob w dir ext -> PyStr.startswith (dir ++ "/") p = true.
Proof.
  unfold glob. intros [H _]%list_elem_of_filter.
  by apply andb_true_iff in H as [[H _]%andb_true_iff _].
Qed.

Section StatusFrame.
Context (BASE_DIR : string) (w w' : world).
Hypothesis frame : forall q,
  PyStr.startswith (DOCS_DIR BASE_DIR ++ "/") q = true -> fs w' !! q = fs w !! q.

Lemma glob_frame key ext :
  glob w' (joinpath (pdf_dir BASE_DIR) key) ext ≡ₚ glob w (joinpath (pdf_dir BASE_DIR) key) ext.
Proof.
  unfold glob. apply (filter_keys_perm
    (fun p => PyStr.startswith (joinpath (pdf_dir BASE_DIR) key ++ "/") p && PyStr.endswith ext p
              && negb (PyStr.contains "/" (relative_to (joinpath (pdf_dir BASE_DIR) key) p)))).
  intros p [[Hp _]%andb_true_iff _]%andb_true_iff. apply frame.
  apply below_subdir in Hp. unfold pdf_dir in Hp. by apply below_subdir in Hp.
Qed.

Lemma github_txts_frame :
  rglob w' (github_dest_dir BASE_DIR) ".txt" ≡ₚ rglob w (github_dest_dir BASE_DIR) ".txt".
Proof.
  unfold rglob. apply (filter_keys_perm
    (fun p => PyStr.startswith (github_dest_dir BASE_DIR ++ "/") p && PyStr.endswith ".txt" p)).
  intros p [Hp _]%andb_true_iff. apply frame.
  unfold github_dest_dir in Hp. by apply below_subdir in Hp.
Qed.

Lemma show_status_frame :
  source_lines (show_status BASE_DIR w') = source_lines (show_status BASE_DIR w)
  /\ github_files (show_status BASE_DIR w') = github_files (show_status BASE_DIR w)
  /\ total_files (show_status BASE_DIR w') = total_files (show_status BASE_DIR w)
  /\ total_size (show_status BASE_DIR w') = total_size (show_status BASE_DIR w).
Proof.
  assert (source_lines (show_status BASE_DIR w') = source_lines (show_status BASE_DIR w)) as Hl.
  { unfold show_status. cbn [source_lines]. apply map_ext. intros [key d]. cbn [fst snd].
    pose proof (glob_frame key ".pdf") as Hperm. f_equal; [f_equal; by rewrite Hperm|].
    rewrite (sum_sizes_perm w' _ _ Hperm). apply sum_sizes_ext.
    intros p Hp%glob_below. apply frame.
    apply below_subdir in Hp. unfold pdf_dir in Hp. by apply below_subdir in Hp. }
  assert (github_files (show_status BASE_DIR w') = github_files (show_status BASE_DIR w)) as Hg.
  { unfold show_status. cbn [github_files]. by rewrite github_txts_frame. }
  split_and!; [done|done| |].
  - unfold show_status in *. cbn [source_lines github_files total_files] in *.
    by rewrite Hl, Hg.
  - unfold show_status in *. cbn [source_lines total_size] in *. by rewrite Hl.
Qed.

End StatusFrame.

(** X17: the extraction does not change what the status report says about
    the documents: after a run, the PDF count and the size of every archive
    source, the number of text files below [github_ocr] and both totals
    are what they were before; only the count of extracted text files can
    move. *)
Theorem X17_status_unchanged_by_extraction BASE_DIR b w :
  let w' := (extract_all_pdfs BASE_DIR b w).2 in
  source_lines (show_status BASE_DIR w') = source_lines (show_status BASE_DIR w)
  /\ github_files (show_status BASE_DIR w') = github_files (show_status BASE_DIR w)
  /\ total_files (show_status BASE_DIR w') = total_files (show_status BASE_DIR w)
  /\ total_size (show_status BASE_DIR w') = total_size (show_status BASE_DIR w)
  /\ (extracted_files (show_status BASE_DIR w) <= extracted_files (show_status BASE_DIR w'))%nat.
Proof.
  intros w'.
  destruct (show_status_frame BASE_DIR w w') as (H1 & H2 & H3 & H4).
  { intros q Hq. apply extract_all_pdfs_writes_below. by apply docs_not_extracted. }
  split_and!; [done..|].
  unfold show_status. cbn [extracted_files]. apply submseteq_length, NoDup_submseteq.
  - apply rglob_NoDup.
  - intros p. rewrite !rglob_spec. intros (Hs & Hpre & Hext). split_and!; [|done|done].
    destruct (decide (p = report_path BASE_DIR)) as [->|Hne].
    + pose proof (report_path_ends BASE_DIR) as Hr.
      pose proof (endswith_two _ _ _ Hext Hr) as Hc. simpl in Hc. by specialize (Hc ltac:(lia)).
    + eapply keeps_is_Some; [|exact Hs]. by apply extract_all_pdfs_keeps.
Qed.

(** ** The complete download *)







(** ** From the download of a record to the search *)







